(** * Collector (fileextracter.py) and Extractor (fileconverter.py)

    A shallow embedding of the two scripts over an explicit file-system
    state, and the properties of their specification.

    - Python strings are [string]s of 8-bit characters; file names are
      taken to be ASCII, so [str.lower] only moves [A]-[Z].
    - The file system is a finite map from paths to nodes, together with
      the set of the folders that exist.  A path is the pair (folder, name)
      that [os.path.join folder name] denotes; names are compared as they
      are written, and the names returned by [os.walk] and [os.listdir]
      contain no path separator.
    - What [os.walk] and [os.listdir] return is an input of the scripts;
      the files themselves are read from the state when they are opened.
    - [lzma] is a parameter of the Extractor.
    - Exceptions, the console and the file system are threaded through a
      small state-and-exception monad; an exception that reaches the top
      level of a script ends the run.
    - Not modelled: the metadata that [shutil.copy2] copies, and failures
      of [os.makedirs] and of [print]. *)

From Stdlib Require Import Strings.String Strings.Ascii Strings.Byte.
From stdpp Require Import gmap strings list fin_maps pretty.

(** ** Python string operations *)

Module Py.

Definition chars (s : string) : list ascii := list_ascii_of_string s.
Definition str (l : list ascii) : string := string_of_list_ascii l.

(** [c.lower()] on an ASCII character. *)
Definition lower_char (c : ascii) : ascii :=
  let n := nat_of_ascii c in
  if (65 <=? n)%nat && (n <=? 90)%nat then ascii_of_nat (n + 32) else c.

(** [s.lower()] *)
Definition lower (s : string) : string := str (lower_char <$> chars s).

(** [s.endswith(suffix)] *)
Definition endswith (s suffix : string) : bool :=
  bool_decide (chars suffix `suffix_of` chars s).

(** [s[:-n]] for a positive [n]. *)
Definition slice_to_minus (n : nat) (s : string) : string :=
  str (take (String.length s - n) (chars s)).

(** [s.rfind(c)], with [None] for Python's [-1]. *)
Fixpoint rfind (c : ascii) (l : list ascii) : option nat :=
  match l with
  | [] => None
  | x :: l' =>
      match rfind c l' with
      | Some i => Some (S i)
      | None => if Ascii.eqb x c then Some 0 else None
      end
  end.

(** [os.path.splitext(p)] on a name without path separator
    ([genericpath._splitext] with [sepIndex = -1]): split at the last
    dot, unless only dots come before it. *)
Definition splitext (p : string) : string * string :=
  match rfind "." (chars p) with
  | Some dotIndex =>
      if existsb (λ c, negb (Ascii.eqb c ".")) (take dotIndex (chars p))
      then (str (take dotIndex (chars p)), str (drop dotIndex (chars p)))
      else (p, "")
  | None => (p, "")
  end.

(** [f"{count}"] for a non-negative integer. *)
Definition format_int (count : nat) : string := pretty count.

End Py.

(** ** File system, console and exceptions *)

(** An exception, identified with its message [str(e)]. *)
Definition exn := string.

Definition ENOENT : exn := "No such file or directory".

(** What a directory entry is to these scripts: a regular file that can be
    opened, with its contents, or something on which [open] raises (a
    sub-directory, a file without permission). *)
Inductive node :=
| Regular (data : list byte)
| Unopenable (e : exn).

Abbreviation path := (string * string)%type.

(** Lines printed on the console. *)
Inductive line :=
| Extracted (file cnf_filename : string)
| ErrorExtracting (file : string) (e : exn)
| AllExtracted
| AllCollected.

(** [copies] is the history of the [shutil.copy2] calls that returned,
    as (source path, destination path), oldest first. *)
Record state := mkState {
  dirs : gset string;
  files : gmap path node;
  copies : list (path * path);
  stdout : list line
}.

Definition set_dirs (f : gset string → gset string) (s : state) : state :=
  mkState (f (dirs s)) (files s) (copies s) (stdout s).
Definition set_files (f : gmap path node → gmap path node) (s : state) : state :=
  mkState (dirs s) (f (files s)) (copies s) (stdout s).
Definition set_copies (f : list (path * path) → list (path * path)) (s : state) : state :=
  mkState (dirs s) (files s) (f (copies s)) (stdout s).
Definition set_stdout (f : list line → list line) (s : state) : state :=
  mkState (dirs s) (files s) (copies s) (f (stdout s)).

(** Outcome of a statement: normal completion, a raised exception, or a
    loop that did not finish within its fuel. *)
Inductive result (A : Type) :=
| Ok (a : A)
| Raise (e : exn)
| Hang.
Arguments Ok {A} a.
Arguments Raise {A} e.
Arguments Hang {A}.

Definition M (A : Type) : Type := state → result A * state.

Definition ret {A} (a : A) : M A := λ s, (Ok a, s).
Definition raise {A} (e : exn) : M A := λ s, (Raise e, s).
Definition hang {A} : M A := λ s, (Hang, s).
Definition bind {A B} (m : M A) (k : A → M B) : M B :=
  λ s, match m s with
       | (Ok a, s') => k a s'
       | (Raise e, s') => (Raise e, s')
       | (Hang, s') => (Hang, s')
       end.

Declare Scope py_scope.
Delimit Scope py_scope with py.
Notation "x <- m ;; k" := (bind m (λ x, k))
  (at level 100, m at next level, right associativity) : py_scope.
Notation "m ;; k" := (bind m (λ _, k))
  (at level 100, right associativity) : py_scope.
Local Open Scope py_scope.

(** [try: body except Exception as e: handler e] *)
Definition try_except {A} (body : M A) (handler : exn → M A) : M A :=
  λ s, match body s with
       | (Raise e, s') => handler e s'
       | r => r
       end.

(** [for x in l: body x] *)
Fixpoint for_each {A} (l : list A) (body : A → M unit) : M unit :=
  match l with
  | [] => ret tt
  | x :: l' => body x ;; for_each l' body
  end.

(** [os.makedirs(d, exist_ok=True)] *)
Definition makedirs (d : string) : M unit :=
  λ s, (Ok tt, set_dirs (λ ds, {[d]} ∪ ds) s).

(** [os.path.exists(p)] *)
Definition path_exists (p : path) : M bool :=
  λ s, (Ok (bool_decide (is_Some (files s !! p))), s).

(** [print(l)], on a console that can encode the line. *)
Definition print (l : line) : M unit :=
  λ s, (Ok tt, set_stdout (λ out, out ++ [l]) s).

(** Opening [p] for reading: the contents, or the exception. *)
Definition open_rb (p : path) : M (list byte) :=
  λ s, match files s !! p with
       | Some (Regular data) => (Ok data, s)
       | Some (Unopenable e) => (Raise e, s)
       | None => (Raise ENOENT, s)
       end.

(** [open(p, "wb")]: the folder must exist; the file is created, or
    truncated when it is already there. *)
Definition open_wb (p : path) : M path :=
  λ s, if bool_decide (p.1 ∈ dirs s) then
         match files s !! p with
         | Some (Unopenable e) => (Raise e, s)
         | _ => (Ok p, set_files (insert p (Regular [])) s)
         end
       else (Raise ENOENT, s).

(** [output.write(data)] on a file opened by [open_wb]. *)
Definition write (output : path) (data : list byte) : M unit :=
  λ s, (Ok tt,
        set_files (alter (λ n, match n with
                               | Regular old => Regular (old ++ data)
                               | Unopenable e => Unopenable e
                               end) output) s).

(** [shutil.copy2(src, dst)]: read the source, write the destination,
    and record the copy. *)
Definition copy2 (src dst : path) : M unit :=
  data <- open_rb src ;;
  output <- open_wb dst ;;
  write output data ;;
  (λ s, (Ok tt, set_copies (λ c, c ++ [(src, dst)]) s)).

(** ** fileextracter.py: the Collector *)

Definition source_root : string := "D:\Projects\Logic_Assignment\sc2002benchs".
Definition destination : string := "D:\Projects\Logic_Assignment\cnffiles".

(** [f"{base}_{count}{ext}"] *)
Definition new_name (base ext : string) (count : nat) : string :=
  base +:+ "_" +:+ Py.format_int count +:+ ext.

(** The loop [while os.path.exists(destination_path): ...], the name part
    of [destination_path] being threaded with [count]. *)
Fixpoint while_exists (fuel : nat) (base ext : string)
    (destination_path : string) (count : nat) : M string :=
  match fuel with
  | 0 => hang
  | S fuel' =>
      b <- path_exists (destination, destination_path) ;;
      if b : bool then
        while_exists fuel' base ext (new_name base ext count) (count + 1)
      else ret destination_path
  end.

(** The body of the inner loop, for one [file] of the directory [root]. *)
Definition collect_file (root file : string) : M unit :=
  if Py.endswith (Py.lower file) ".cnf" || Py.endswith (Py.lower file) ".cnf.xz"
  then
    let source_path := (root, file) in
    b <- path_exists (destination, file) ;;
    destination_path <-
      (if b : bool then
         let '(base, ext) := Py.splitext file in
         (* the loop tests a new path each time round, so it ends within
            as many rounds as there are files, plus one *)
         fuel <- (λ s, (Ok (S (size (files s))), s)) ;;
         while_exists fuel base ext file 1
       else ret file) ;;
    copy2 source_path (destination, destination_path)
  else ret tt.

(** The script; [walk] is what [os.walk(source_root)] yields: each
    directory of the tree with the names of its files. *)
Definition collector (walk : list (string * list string)) : M unit :=
  makedirs destination ;;
  for_each walk (λ '(root, files), for_each files (collect_file root)) ;;
  print AllCollected.

(** ** fileconverter.py: the Extractor *)

Definition source_folder : string := "D:\Projects\Logic_Assignment\cnffiles".
Definition destination_folder : string :=
  "D:\Projects\Logic_Assignment\cnfextractedfiles".

Section Extractor.

(** [lzma] is a library: what reading a whole [.xz] stream gives, the
    payload or the exception, is a parameter of the model. *)
Variable lzma_decompress : list byte → exn + list byte.

(** [compressed.read()] on a stream opened by [lzma.open(p, "rb")];
    opening only opens the file, decoding happens on reading. *)
Definition lzma_read (compressed : list byte) : M (list byte) :=
  match lzma_decompress compressed with
  | inl e => raise e
  | inr data => ret data
  end.

(** The [try] block for one [file]. *)
Definition extract_body (file cnf_filename : string) : M unit :=
  let xz_path := (source_folder, file) in
  let cnf_path := (destination_folder, cnf_filename) in
  compressed <- open_rb xz_path ;;
  output <- open_wb cnf_path ;;
  data <- lzma_read compressed ;;
  write output data ;;
  print (Extracted file cnf_filename).

(** The body of the loop. *)
Definition extract_file (file : string) : M unit :=
  if Py.endswith (Py.lower file) ".cnf.xz" then
    let cnf_filename := Py.slice_to_minus 3 file in
    try_except (extract_body file cnf_filename)
               (λ e, print (ErrorExtracting file e))
  else ret tt.

(** The script; [listing] is what [os.listdir(source_folder)] returns. *)
Definition extractor (listing : list string) : M unit :=
  makedirs destination_folder ;;
  for_each listing extract_file ;;
  print AllExtracted.

End Extractor.

(** ** Vocabulary of the properties *)

(** The names the Collector copies. *)
Definition is_collected (file : string) : bool :=
  Py.endswith (Py.lower file) ".cnf" || Py.endswith (Py.lower file) ".cnf.xz".

(** The names the Extractor decompresses. *)
Definition is_extracted (file : string) : bool :=
  Py.endswith (Py.lower file) ".cnf.xz".

(** The files of a walk, in the order the nested loops visit them. *)
Definition walk_files (walk : list (string * list string)) : list path :=
  walk ≫= λ '(root, files), pair root <$> files.

(** The name the Collector gives in the destination to [file]: the name
    itself when it is free, otherwise the first free [base_N ext]. *)
Definition chosen (fs : gmap path node) (file name : string) : Prop :=
  fs !! (destination, name) = None ∧
  (name = file ∨
   is_Some (fs !! (destination, file)) ∧
   ∃ N, 1 ≤ N ∧ name = new_name (Py.splitext file).1 (Py.splitext file).2 N ∧
        ∀ M, 1 ≤ M < N →
             is_Some (fs !! (destination, new_name (Py.splitext file).1 (Py.splitext file).2 M))).

(** The two loops of the Collector over the files of a walk. *)
Definition collect_all (l : list path) : M unit :=
  for_each l (λ p, collect_file p.1 p.2).

(** What a run of the two loops from [s] does, whether it ends or
    raises: [cs] are the copies it made. *)
Record collected (l : list path) (s : state) (r : result unit) (s' : state)
    (cs : list (path * path)) : Prop := {
  col_dirs : dirs s' = dirs s;
  col_stdout : stdout s' = stdout s;
  col_ends : r ≠ Hang;
  col_kept : ∀ p v, files s !! p = Some v → files s' !! p = Some v;
  col_copies : copies s' = copies s ++ cs;
  col_nodup : NoDup cs.*2;
  col_fresh : ∀ dst, dst ∈ cs.*2 → dst.1 = destination ∧ files s !! dst = None;
  col_only : ∀ p, is_Some (files s' !! p) → is_Some (files s !! p) ∨ p ∈ cs.*2;
  col_data : ∀ src dst, (src, dst) ∈ cs →
      ∃ data, files s' !! src = Some (Regular data) ∧
              files s' !! dst = Some (Regular data);
  col_all : r = Ok tt → cs.*1 = filter (λ p : path, is_collected p.2) l;
  col_ok : (∀ p, p ∈ l → is_collected p.2 →
                 ∃ data, files s !! p = Some (Regular data)) → r = Ok tt
}.

(** ** What one round of the Extractor does *)

Section ExtractorEffects.

Variable lzma_decompress : list byte → exn + list byte.

(** The file one round of the loop leaves in the destination folder,
    if any: the payload, or an empty file when decoding fails after the
    output was opened. *)
Definition extract_write (s : state) (file : string) : option (path * node) :=
  if is_extracted file then
    match files s !! (source_folder, file) with
    | Some (Regular data) =>
        if bool_decide (destination_folder ∈ dirs s) then
          match files s !! (destination_folder, Py.slice_to_minus 3 file) with
          | Some (Unopenable _) => None
          | _ => Some ((destination_folder, Py.slice_to_minus 3 file),
                       Regular (match lzma_decompress data with
                                | inl _ => []
                                | inr payload => payload
                                end))
          end
        else None
    | _ => None
    end
  else None.

(** The lines one round of the loop prints. *)
Definition extract_lines (s : state) (file : string) : list line :=
  if is_extracted file then
    match files s !! (source_folder, file) with
    | Some (Regular data) =>
        if bool_decide (destination_folder ∈ dirs s) then
          match files s !! (destination_folder, Py.slice_to_minus 3 file) with
          | Some (Unopenable e) => [ErrorExtracting file e]
          | _ => match lzma_decompress data with
                 | inl e => [ErrorExtracting file e]
                 | inr _ => [Extracted file (Py.slice_to_minus 3 file)]
                 end
          end
        else [ErrorExtracting file ENOENT]
    | Some (Unopenable e) => [ErrorExtracting file e]
    | None => [ErrorExtracting file ENOENT]
    end
  else [].

(** The loop of the Extractor, from the state it is entered in. *)
Definition extract_all (listing : list string) (s : state) : state :=
  (for_each listing (extract_file lzma_decompress) s).2.

End ExtractorEffects.

Definition apply_write (w : option (path * node)) (fs : gmap path node) :
    gmap path node :=
  match w with
  | Some (k, v) => <[k := v]> fs
  | None => fs
  end.

Definition apply_writes (ws : list (path * node)) (fs : gmap path node) :
    gmap path node :=
  foldl (λ m w, <[w.1 := w.2]> m) fs ws.

(** Two states that the Extractor cannot tell apart but for the contents
    of the regular files of its destination folder. *)
Definition same_env (s t : state) : Prop :=
  dirs s = dirs t ∧
  (∀ p, p.1 ≠ destination_folder → files s !! p = files t !! p) ∧
  (∀ p e, files s !! p = Some (Unopenable e) ↔ files t !! p = Some (Unopenable e)).

(** The names the Collector gives to files that share the name [file]:
    the name itself, then the names of counts 1, 2, ... *)
Definition nth_name (file : string) (i : nat) : string :=
  match i with
  | 0 => file
  | S _ => new_name (Py.splitext file).1 (Py.splitext file).2 i
  end.

(** ** Sample inputs *)

(** Three files named [a.cnf]: at the root of the tree and in two of its
    sub-directories. *)
Definition walk_a : list (string * list string) :=
  [(source_root, ["a.cnf"]);
   (source_root +:+ "\sub", ["a.cnf"]);
   (source_root +:+ "\sub2", ["a.cnf"])].

Definition tree_a : state :=
  mkState ∅
    (<[(source_root, "a.cnf") := Regular (list_byte_of_string "p cnf 1 1")]>
       (<[(source_root +:+ "\sub", "a.cnf") := Regular (list_byte_of_string "p cnf 2 2")]>
          (<[(source_root +:+ "\sub2", "a.cnf") := Regular (list_byte_of_string "p cnf 3 3")]> ∅)))
    [] [].

(** A directory with a file that cannot be read, followed by one that
    can. *)
Definition walk_locked : list (string * list string) :=
  [(source_root, ["a.cnf"; "b.cnf"])].

Definition tree_locked : state :=
  mkState ∅
    (<[(source_root, "a.cnf") := Unopenable "Permission denied"]>
       (<[(source_root, "b.cnf") := Regular (list_byte_of_string "p cnf 1 1")]> ∅))
    [] [].

(** A destination folder where [a.cnf] and [a_1.cnf] are taken. *)
Definition tree_taken : state :=
  mkState {[destination]}
    (<[(destination, "a.cnf") := Regular (list_byte_of_string "p cnf 1 1")]>
       (<[(destination, "a_1.cnf") := Regular (list_byte_of_string "p cnf 2 2")]>
          (<[(source_root +:+ "\sub2", "a.cnf") := Regular (list_byte_of_string "p cnf 3 3")]> ∅)))
    [] [].

(** A stand-in for [lzma] in the sample runs: the six bytes that open an
    [.xz] stream, followed by the payload as it is. *)
Definition toy_xz (data : list byte) : exn + list byte :=
  match data with
  | xfd :: x37 :: x7a :: x58 :: x5a :: x00 :: payload => inr payload
  | _ => inl "Input format not supported by decoder"
  end.

Definition hello_xz : list byte :=
  [xfd; x37; x7a; x58; x5a; x00] ++ list_byte_of_string "hello".

(** A source folder with [x.cnf.xz], which holds [hello]. *)
Definition folder_x : state :=
  mkState ∅ (<[(source_folder, "x.cnf.xz") := Regular hello_xz]> ∅) [] [].

(** A source folder with a corrupt file, a file that cannot be read and
    a valid one. *)
Definition listing_mixed : list string :=
  ["bad.cnf.xz"; "locked.cnf.xz"; "x.cnf.xz"].

Definition folder_mixed : state :=
  mkState ∅
    (<[(source_folder, "bad.cnf.xz") := Regular (list_byte_of_string "garbage")]>
       (<[(source_folder, "locked.cnf.xz") := Unopenable "Permission denied"]>
          (<[(source_folder, "x.cnf.xz") := Regular hello_xz]> ∅)))
    [] [].

(** The output [x.cnf] is there already, from an earlier run. *)
Definition folder_old : state :=
  mkState {[destination_folder]}
    (<[(source_folder, "x.cnf.xz") := Regular hello_xz]>
       (<[(destination_folder, "x.cnf") := Regular (list_byte_of_string "old")]> ∅))
    [] [].

(** A source folder with [A.CNF.XZ]. *)
Definition folder_upper : state :=
  mkState ∅ (<[(source_folder, "A.CNF.XZ") := Regular hello_xz]> ∅) [] [].

(** Two inputs of the Extractor whose names differ in the case of [xz]
    only. *)
Definition folder_twice : state :=
  mkState ∅
    (<[(source_folder, "a.cnf.xz") :=
         Regular ([xfd; x37; x7a; x58; x5a; x00] ++ list_byte_of_string "first")]>
       (<[(source_folder, "a.cnf.XZ") :=
            Regular ([xfd; x37; x7a; x58; x5a; x00] ++ list_byte_of_string "second")]> ∅))
    [] [].

(** A tree with a compressed file and a file of another kind. *)
Definition walk_xz : list (string * list string) :=
  [(source_root, ["x.cnf.xz"; "notes.txt"])].

Definition tree_xz : state :=
  mkState ∅
    (<[(source_root, "x.cnf.xz") := Regular hello_xz]>
       (<[(source_root, "notes.txt") := Regular (list_byte_of_string "todo")]> ∅))
    [] [].

(** * Properties *)

(** ** Strings *)

Module PyFacts.
Import Py.

Lemma str_chars s : str (chars s) = s.
Proof. apply string_of_list_ascii_of_string. Qed.

Lemma chars_str l : chars (str l) = l.
Proof. apply list_ascii_of_string_of_list_ascii. Qed.

Lemma chars_inj s t : chars s = chars t → s = t.
Proof. intros H. rewrite <- (str_chars s), <- (str_chars t). by f_equal. Qed.

Lemma chars_app s t : chars (s +:+ t) = chars s ++ chars t.
Proof. induction s as [|a s IH]; simpl; [done|]. unfold chars in *. simpl. by f_equal. Qed.

Lemma str_app l k : str (l ++ k) = str l +:+ str k.
Proof. apply chars_inj. by rewrite chars_app, !chars_str. Qed.

Lemma length_chars s : length (chars s) = String.length s.
Proof. induction s; simpl; [done|]. unfold chars in *; simpl. by f_equal. Qed.

Lemma app_inv_tail s t u : s +:+ u = t +:+ u → s = t.
Proof.
  intros H. apply chars_inj. apply (f_equal chars) in H.
  rewrite !chars_app in H. by apply app_inv_tail in H.
Qed.

(** *** [endswith] and [lower] *)

Lemma endswith_true s suffix :
  endswith s suffix = true ↔ ∃ stem, s = stem +:+ suffix.
Proof.
  unfold endswith. rewrite bool_decide_eq_true. split.
  - intros [k Hk]. exists (str k). apply chars_inj.
    by rewrite chars_app, chars_str.
  - intros [stem ->]. exists (chars stem). apply chars_app.
Qed.

Lemma chars_lower s : chars (lower s) = lower_char <$> chars s.
Proof. unfold lower. by rewrite chars_str. Qed.

(** A name that ends in [suffix] up to case is a stem followed by a
    tail of the length of [suffix] that lowers to it. *)
Lemma endswith_lower s suffix :
  endswith (lower s) suffix = true ↔
  ∃ stem tail, s = stem +:+ tail ∧ lower tail = suffix.
Proof.
  rewrite endswith_true. split.
  - intros [k Hk]. apply (f_equal chars) in Hk.
    rewrite chars_lower, chars_app in Hk.
    apply fmap_app_inv in Hk as (l1 & l2 & _ & H2 & Hs).
    exists (str l1), (str l2). split.
    + apply chars_inj. by rewrite chars_app, !chars_str.
    + apply chars_inj. by rewrite chars_lower, chars_str.
  - intros (stem & tail & -> & <-). exists (lower stem).
    apply chars_inj. by rewrite chars_app, !chars_lower, chars_app, fmap_app.
Qed.

Lemma length_lower s : String.length (lower s) = String.length s.
Proof. by rewrite <- !length_chars, chars_lower, length_fmap. Qed.

Lemma lower_char_dot c : lower_char c = "."%char ↔ c = "."%char.
Proof.
  split; [|by intros ->].
  destruct c as [[] [] [] [] [] [] [] []]; vm_compute; congruence.
Qed.

(** *** [slice_to_minus] *)

Lemma slice_to_minus_app stem tail :
  slice_to_minus (String.length tail) (stem +:+ tail) = stem.
Proof.
  unfold slice_to_minus. apply chars_inj.
  rewrite chars_str, chars_app, <- !length_chars, chars_app, length_app.
  replace (length (chars stem) + length (chars tail) - length (chars tail))
    with (length (chars stem)) by lia.
  by rewrite take_app_length.
Qed.

(** *** [rfind] and [splitext] *)

Lemma rfind_None c l : rfind c l = None ↔ c ∉ l.
Proof.
  induction l as [|x l IH]; simpl.
  - split; [intros _; apply not_elem_of_nil|done].
  - rewrite not_elem_of_cons. destruct (rfind c l) eqn:E.
    + split; [done|]. intros [_ H]. by apply IH in H.
    + destruct (Ascii.eqb_spec x c) as [->|Hne]; split; try done.
      * by intros [? _].
      * intros _. split; [congruence|]. by apply IH.
Qed.

Lemma rfind_last c l1 l2 :
  c ∉ l2 → rfind c (l1 ++ c :: l2) = Some (length l1).
Proof.
  intros Hc. induction l1 as [|x l1 IH]; simpl.
  - apply rfind_None in Hc. rewrite Hc. by rewrite Ascii.eqb_refl.
  - by rewrite IH.
Qed.

Lemma splitext_app p base ext : splitext p = (base, ext) → p = base +:+ ext.
Proof.
  unfold splitext. intros H.
  assert (p = p +:+ "") as Hnil.
  { apply chars_inj. by rewrite chars_app, app_nil_r. }
  repeat case_match; simplify_eq; try done.
  rewrite <- str_app, take_drop. by rewrite str_chars.
Qed.

(** With a character other than a dot in [base] and no dot in [ext],
    the name [base.ext] splits at that dot. *)
Lemma splitext_dot base ext :
  (∃ c, c ∈ chars base ∧ c ≠ "."%char) → "."%char ∉ chars ext →
  splitext (base +:+ "." +:+ ext) = (base, "." +:+ ext).
Proof.
  intros (c & Hc & Hdot) Hext. unfold splitext.
  rewrite !chars_app. change (chars ".") with ["."%char]. simpl.
  rewrite rfind_last by done. rewrite take_app_length, drop_app_length.
  assert (existsb (λ c, negb (Ascii.eqb c ".")) (chars base) = true) as ->.
  { apply existsb_exists. exists c. split; [by apply list_elem_of_In|].
    by destruct (Ascii.eqb_spec c "."). }
  f_equal; [apply str_chars|].
  apply chars_inj. by rewrite chars_str, chars_app.
Qed.

(** When only dots come before the last dot, nothing is split off. *)
Lemma splitext_dots dots ext :
  Forall (λ c, c = "."%char) (chars dots) → "."%char ∉ chars ext →
  splitext (dots +:+ "." +:+ ext) = (dots +:+ "." +:+ ext, "").
Proof.
  intros Hd Hext. unfold splitext.
  rewrite !chars_app. change (chars ".") with ["."%char]. simpl.
  rewrite rfind_last by done. rewrite take_app_length.
  assert (existsb (λ c, negb (Ascii.eqb c ".")) (chars dots) = false) as ->; [|done].
  apply not_true_is_false. intros (c & Hc & Hne)%existsb_exists.
  apply list_elem_of_In in Hc. rewrite Forall_forall in Hd.
  rewrite (Hd c Hc) in Hne. done.
Qed.

(** *** [format_int] *)

Lemma pretty_N_char_digit x : is_Some (Ascii.is_nat (pretty_N_char x)).
Proof. unfold pretty_N_char. repeat case_match; simpl; eauto. Qed.

Lemma pretty_N_go_snoc x s :
  (0 < x)%N →
  ∃ t c, is_Some (Ascii.is_nat c) ∧ pretty_N_go x s = t +:+ String c s.
Proof.
  revert s. induction (N.lt_wf_0 x) as [x _ IH]; intros s Hx.
  rewrite pretty_N_go_step by done.
  destruct (decide (0 < x `div` 10)%N) as [Hd|Hd].
  - destruct (IH (x `div` 10)%N) with (s := String (pretty_N_char (x `mod` 10)) s)
      as (t & c & Hc & ->); [by apply N.div_lt|done|].
    exists (t +:+ String c ""), (pretty_N_char (x `mod` 10)).
    split; [apply pretty_N_char_digit|].
    apply chars_inj. rewrite !chars_app. by rewrite <- app_assoc.
  - assert (x `div` 10 = 0)%N as ->
      by (destruct (x `div` 10)%N; [done|lia]).
    rewrite pretty_N_go_0.
    exists "", (pretty_N_char (x `mod` 10)). split; [apply pretty_N_char_digit|done].
Qed.

(** The decimal numeral of a number ends in a digit. *)
Lemma format_int_snoc n :
  ∃ t c, is_Some (Ascii.is_nat c) ∧ format_int n = t +:+ String c "".
Proof.
  unfold format_int, pretty, pretty_nat, pretty, pretty_N.
  case_decide as H.
  - exists "", "0"%char. split; [by eexists|done].
  - apply pretty_N_go_snoc. lia.
Qed.

Lemma format_int_inj n m : format_int n = format_int m → n = m.
Proof. apply pretty_nat_inj. Qed.

End PyFacts.

(** ** The monad *)

Lemma for_each_app {A} (l1 l2 : list A) (body : A → M unit) s :
  for_each (l1 ++ l2) body s = (for_each l1 body ;; for_each l2 body) s.
Proof.
  revert s. induction l1 as [|x l1 IH]; intros s; simpl; [done|].
  unfold bind in *. by destruct (body x s) as [[[]| |] s1].
Qed.

(** ** The Collector *)

Lemma new_name_inj base ext n m :
  new_name base ext n = new_name base ext m → n = m.
Proof.
  unfold new_name. intros H.
  apply (inj (String.app base)), (inj (String.app "_")) in H.
  apply PyFacts.app_inv_tail in H. by apply PyFacts.format_int_inj.
Qed.

Lemma new_name_ne base ext n : new_name base ext n ≠ base +:+ ext.
Proof.
  unfold new_name. intros H. apply (inj (String.app base)) in H.
  apply (f_equal String.length) in H.
  rewrite <- !PyFacts.length_chars, !PyFacts.chars_app, !length_app in H.
  simpl in H. lia.
Qed.

Lemma while_exists_state fuel base ext p c s :
  (while_exists fuel base ext p c s).2 = s.
Proof.
  revert p c. induction fuel as [|fuel IH]; intros p c; simpl; [done|].
  unfold bind, path_exists. case_bool_decide; [apply IH|done].
Qed.

Lemma while_exists_spec fuel base ext p c s :
  match (while_exists fuel base ext p c s).1 with
  | Ok d =>
      files s !! (destination, d) = None ∧
      (d = p ∨
       is_Some (files s !! (destination, p)) ∧
       ∃ N, c ≤ N ∧ d = new_name base ext N ∧
            ∀ M, c ≤ M < N → is_Some (files s !! (destination, new_name base ext M)))
  | Raise _ => False
  | Hang =>
      (fuel = 0 ∨ is_Some (files s !! (destination, p))) ∧
      ∀ M, c ≤ M < c + (fuel - 1) →
           is_Some (files s !! (destination, new_name base ext M))
  end.
Proof.
  revert p c. induction fuel as [|fuel IH]; intros p c; simpl.
  { split; [by left|]. intros M ?. lia. }
  unfold bind, path_exists. case_bool_decide as Hp; simpl.
  - specialize (IH (new_name base ext c) (c + 1)).
    destruct (while_exists fuel base ext (new_name base ext c) (c + 1) s).1
      as [d| |]; [|done|].
    + destruct IH as [Hd [->|(Hin & N & HN & -> & Hall)]]; split; try done; right.
      * split; [done|]. exists c. split; [lia|]. split; [done|]. intros M ?. lia.
      * split; [done|]. exists N. split; [lia|]. split; [done|].
        intros M HM. destruct (decide (M = c)) as [->|]; [done|]. apply Hall. lia.
    + destruct IH as [Hf Hall]. split; [by right|].
      intros M HM. destruct (decide (M = c)) as [->|].
      * destruct Hf as [->|]; [lia|done].
      * apply Hall. lia.
  - split; [|by left]. by apply eq_None_not_Some.
Qed.

(** The loop ends within the fuel it is given: it cannot find more
    names taken than there are files. *)
Lemma while_exists_ends base ext s :
  (while_exists (S (size (files s))) base ext (base +:+ ext) 1 s).1 ≠ Hang.
Proof.
  intros H. pose proof (while_exists_spec (S (size (files s))) base ext (base +:+ ext) 1 s) as Hs.
  rewrite H in Hs. destruct Hs as [[?|Hp] Hall]; [done|].
  set (L := (destination, base +:+ ext) ::
            ((λ M, (destination, new_name base ext M)) <$> seq 1 (size (files s)))).
  assert (NoDup L) as Hnd.
  { apply NoDup_cons. split.
    - intros (M & HM & _)%list_elem_of_fmap. simplify_eq.
      by eapply new_name_ne.
    - apply NoDup_fmap_2; [|apply NoDup_seq].
      intros n m Hnm. simplify_eq. by eapply new_name_inj. }
  assert (list_to_set L ⊆ dom (files s)) as Hsub.
  { intros q. rewrite elem_of_list_to_set, elem_of_dom. unfold L.
    rewrite elem_of_cons, list_elem_of_fmap.
    intros [->|(M & -> & HM%elem_of_seq)]; [done|]. apply Hall. simpl. lia. }
  apply subseteq_size in Hsub.
  rewrite size_list_to_set, size_dom in Hsub by done.
  unfold L in Hsub. simpl in Hsub. rewrite length_fmap, length_seq in Hsub. lia.
Qed.

Lemma for_each_walk walk s :
  for_each walk (λ '(root, files), for_each files (collect_file root)) s =
  for_each (walk_files walk) (λ p, collect_file p.1 p.2) s.
Proof.
  revert s. induction walk as [|[root fs] walk IH]; intros s; [done|].
  unfold walk_files. simpl. rewrite for_each_app. unfold bind.
  assert (∀ s, for_each (pair root <$> fs) (λ p, collect_file p.1 p.2) s =
               for_each fs (collect_file root) s) as ->.
  { clear. induction fs as [|f fs IH]; intros s; simpl; [done|].
    unfold bind. by destruct (collect_file root f s) as [[[]| |] s1]. }
  by destruct (for_each fs (collect_file root) s) as [[[]| |] s1].
Qed.

Lemma copy2_spec src dst s :
  copy2 src dst s =
  match files s !! src with
  | None => (Raise ENOENT, s)
  | Some (Unopenable e) => (Raise e, s)
  | Some (Regular data) =>
      if bool_decide (dst.1 ∈ dirs s) then
        match files s !! dst with
        | Some (Unopenable e) => (Raise e, s)
        | _ => (Ok tt, mkState (dirs s) (<[dst := Regular data]> (files s))
                               (copies s ++ [(src, dst)]) (stdout s))
        end
      else (Raise ENOENT, s)
  end.
Proof.
  unfold copy2, bind, open_rb, open_wb, write.
  destruct (files s !! src) as [[data|e]|]; try done.
  case_bool_decide; [|done].
  destruct (files s !! dst) as [[old|e]|]; try done;
    unfold set_files, set_copies; simpl; by rewrite alter_insert_eq.
Qed.

Lemma collect_file_skip root file s :
  is_collected file = false → collect_file root file s = (Ok tt, s).
Proof. unfold collect_file, is_collected. by intros ->. Qed.

Lemma collect_file_copy root file s :
  is_collected file = true →
  ∃ name, chosen (files s) file name ∧
          collect_file root file s = copy2 (root, file) (destination, name) s.
Proof.
  unfold collect_file, is_collected. intros ->.
  unfold bind at 1. unfold path_exists at 1. case_bool_decide as Hex.
  - destruct (Py.splitext file) as [base ext] eqn:Hsp.
    pose proof (PyFacts.splitext_app _ _ _ Hsp) as ->.
    unfold bind at 1 2.
    pose proof (while_exists_ends base ext s) as Hend.
    pose proof (while_exists_spec (S (size (files s))) base ext (base +:+ ext) 1 s) as Hs.
    pose proof (while_exists_state (S (size (files s))) base ext (base +:+ ext) 1 s) as Hst.
    destruct (while_exists _ base ext (base +:+ ext) 1 s) as [[name| |] s1];
      simpl in *; try done. subst s1.
    exists name. split; [|done]. destruct Hs as [Hn Hs]. split; [done|].
    rewrite Hsp. simpl. done.
  - exists file. split; [|done]. split; [|by left]. by apply eq_None_not_Some.
Qed.

Lemma collect_all_spec l s :
  destination ∈ dirs s →
  ∃ cs, collected l s (collect_all l s).1 (collect_all l s).2 cs.
Proof.
  revert s. induction l as [|[root file] l IH]; intros s Hd.
  { exists []. split; simpl; try done.
    - by rewrite app_nil_r.
    - constructor.
    - intros dst H. by apply elem_of_nil in H.
    - intros p H. by left.
    - intros src dst H. by apply elem_of_nil in H. }
  unfold collect_all in *. simpl. unfold bind.
  destruct (is_collected file) eqn:Hx.
  2:{ rewrite collect_file_skip by done.
      destruct (IH s Hd) as [cs H]. exists cs. destruct H. split; try done.
      - intros Hr. rewrite filter_cons_False. 2:{ simpl. rewrite Hx. intros []. }
        by apply col_all0.
      - intros Hall. apply col_ok0. intros p Hp. apply Hall. by right. }
  destruct (collect_file_copy root file s Hx) as (name & [Hfree Hch] & ->).
  rewrite copy2_spec. simpl.
  destruct (files s !! (root, file)) as [[data|e]|] eqn:Hsrc.
  - rewrite bool_decide_eq_true_2 by done. rewrite Hfree.
    set (s1 := mkState _ _ _ _).
    destruct (IH s1 Hd) as [cs H]. destruct H.
    assert ((root, file) ≠ (destination, name)) as Hne by congruence.
    exists (((root, file), (destination, name)) :: cs). split; try done.
    + intros p v Hp. apply col_kept0. simpl.
      rewrite lookup_insert_ne; [done|congruence].
    + rewrite col_copies0. simpl. by rewrite <- app_assoc.
    + simpl. apply NoDup_cons. split; [|done].
      intros Hin. apply col_fresh0 in Hin as [_ Hin]. simpl in Hin.
      by rewrite lookup_insert_eq in Hin.
    + simpl. intros dst [->|Hin]%elem_of_cons; [done|].
      apply col_fresh0 in Hin as [? Hin]. split; [done|]. simpl in Hin.
      apply lookup_insert_None in Hin. tauto.
    + intros p Hp. apply col_only0 in Hp as [Hp|Hp].
      * simpl in Hp. destruct (decide ((destination, name) = p)) as [<-|Hnp].
        -- right. simpl. by left.
        -- rewrite lookup_insert_ne in Hp by done. by left.
      * right. simpl. by right.
    + intros src dst [Heq|Hin]%elem_of_cons; [|by apply col_data0].
      simplify_eq. exists data. split; apply col_kept0; simpl.
      * by rewrite lookup_insert_ne.
      * by rewrite lookup_insert_eq.
    + intros Hr. simpl. rewrite filter_cons_True. 2:{ simpl. rewrite Hx. exact I. }
      f_equal. by apply col_all0.
    + intros Hall. apply col_ok0. intros p Hp Hc.
      destruct (Hall p) as [dp Hdp]; [by right|done|]. exists dp. simpl.
      rewrite lookup_insert_ne; [done|congruence].
  - exists []. split; simpl; try done.
    + by rewrite app_nil_r.
    + constructor.
    + intros dst H. by apply elem_of_nil in H.
    + intros p H. by left.
    + intros src dst H. by apply elem_of_nil in H.
    + intros Hall. destruct (Hall (root, file)) as [? ?]; [by left|simpl; rewrite Hx; exact I|congruence].
  - exists []. split; simpl; try done.
    + by rewrite app_nil_r.
    + constructor.
    + intros dst H. by apply elem_of_nil in H.
    + intros p H. by left.
    + intros src dst H. by apply elem_of_nil in H.
    + intros Hall. destruct (Hall (root, file)) as [? ?]; [by left|simpl; rewrite Hx; exact I|congruence].
Qed.

Lemma collector_unfold walk s :
  collector walk s =
  match collect_all (walk_files walk) (set_dirs (λ ds, {[destination]} ∪ ds) s) with
  | (Ok _, s2) => (Ok tt, set_stdout (λ out, out ++ [AllCollected]) s2)
  | r => r
  end.
Proof.
  unfold collector, bind, makedirs, print, collect_all.
  rewrite for_each_walk. by destruct (for_each _ _ _) as [[[]| |] s2].
Qed.

Lemma collector_spec walk s :
  ∃ cs, collected (walk_files walk) (set_dirs (λ ds, {[destination]} ∪ ds) s)
          (collector walk s).1
          (set_stdout (λ _, stdout s) (collector walk s).2) cs.
Proof.
  rewrite collector_unfold.
  destruct (collect_all_spec (walk_files walk) (set_dirs (λ ds, {[destination]} ∪ ds) s))
    as [cs H]; [simpl; set_solver|].
  exists cs. destruct (collect_all _ _) as [[[]| |] s2]; destruct H; by split.
Qed.

Lemma NoDup_fst_functional {A B} (l : list (A * B)) x y1 y2 :
  NoDup l.*1 → (x, y1) ∈ l → (x, y2) ∈ l → y1 = y2.
Proof.
  induction l as [|[a b] l IH]; simpl; intros Hnd H1 H2.
  { by apply elem_of_nil in H1. }
  apply NoDup_cons in Hnd as [Hn Hnd].
  apply elem_of_cons in H1 as [?|H1]; apply elem_of_cons in H2 as [?|H2];
    simplify_eq; try done.
  - destruct Hn. apply list_elem_of_fmap. by exists (a, y2).
  - destruct Hn. apply list_elem_of_fmap. by exists (a, y1).
  - by apply IH.
Qed.

(** *** Claims on the Collector *)

(** C1 (amended).  In every run of the Collector, whether it ends or
    aborts, the copies it makes go to pairwise distinct paths of the
    destination folder that did not exist before the run, every file that
    existed before the run is unchanged after it, and every copy made is
    still in place at the end, next to its unchanged source: no file,
    pre-existing or created earlier in the run, is overwritten.  When
    moreover every file of the walk with a collected name can be read, the
    run ends normally and the sources of the copies are exactly those
    files, in the order of the walk: each is copied to exactly one
    destination path. *)
Theorem collector_copies_once_no_overwrite walk s :
  ∃ cs,
    copies (collector walk s).2 = copies s ++ cs ∧
    NoDup cs.*2 ∧
    (∀ dst, dst ∈ cs.*2 → dst.1 = destination ∧ files s !! dst = None) ∧
    (∀ p v, files s !! p = Some v → files (collector walk s).2 !! p = Some v) ∧
    (∀ src dst, (src, dst) ∈ cs →
       ∃ data, files (collector walk s).2 !! src = Some (Regular data) ∧
               files (collector walk s).2 !! dst = Some (Regular data)) ∧
    ((∀ p, p ∈ walk_files walk → is_collected p.2 →
           ∃ data, files s !! p = Some (Regular data)) →
     (collector walk s).1 = Ok tt ∧
     cs.*1 = filter (λ p : path, is_collected p.2) (walk_files walk) ∧
     (NoDup (walk_files walk) →
      ∀ p, p ∈ walk_files walk → is_collected p.2 →
           ∃ dst, (p, dst) ∈ cs ∧ ∀ dst', (p, dst') ∈ cs → dst' = dst)).
Proof.
  destruct (collector_spec walk s) as [cs H]. destruct H. simpl in *.
  exists cs. do 5 (split; [done|]). intros H. split; [|split].
  - by apply col_ok0.
  - apply col_all0. by apply col_ok0.
  - intros Hnd p Hp Hc.
    pose proof (col_all0 (col_ok0 H)) as Hcs.
    assert (p ∈ cs.*1) as Hin.
    { rewrite Hcs. apply list_elem_of_filter. by split. }
    apply list_elem_of_fmap in Hin as ([p' dst] & -> & Hin). simpl.
    exists dst. split; [done|]. intros dst' Hin'.
    eapply NoDup_fst_functional; [|exact Hin'|exact Hin].
    rewrite Hcs. by apply NoDup_filter.
Qed.

Lemma collector_copies_once_no_overwrite_witness :
  ∃ cs, copies (collector walk_a tree_a).2 = copies tree_a ++ cs ∧
        (collector walk_a tree_a).1 = Ok tt ∧
        cs.*1 = filter (λ p : path, is_collected p.2) (walk_files walk_a).
Proof.
  destruct (collector_copies_once_no_overwrite walk_a tree_a)
    as (cs & Hcs & _ & _ & _ & _ & H).
  exists cs. split; [exact Hcs|].
  destruct H as (Hok & Hall & _); [|exact (conj Hok Hall)].
  intros p Hp _. unfold walk_files, walk_a in Hp. simpl in Hp.
  apply elem_of_cons in Hp as [->|Hp]; [eexists; vm_compute; reflexivity|].
  apply elem_of_cons in Hp as [->|Hp]; [eexists; vm_compute; reflexivity|].
  apply elem_of_cons in Hp as [->|Hp]; [eexists; vm_compute; reflexivity|].
  apply elem_of_nil in Hp. destruct Hp.
Defined.

(** C1 as stated fails where a copy raises: [b.cnf] is a readable file of
    the walk with a collected name, and the run, aborted by the copy of
    [a.cnf], copies it nowhere. *)
Lemma collector_copies_once_counterexample :
  (source_root, "b.cnf") ∈ walk_files walk_locked ∧
  is_collected "b.cnf" = true ∧
  (∃ data, files tree_locked !! (source_root, "b.cnf") = Some (Regular data)) ∧
  ¬ ∃ dst, ((source_root, "b.cnf"), dst) ∈ copies (collector walk_locked tree_locked).2.
Proof.
  split; [|split; [|split]].
  - unfold walk_files, walk_locked. simpl. set_solver.
  - vm_compute. reflexivity.
  - eexists. vm_compute. reflexivity.
  - intros [dst H].
    assert (copies (collector walk_locked tree_locked).2 = []) as Hc
      by (vm_compute; reflexivity).
    rewrite Hc in H. by apply elem_of_nil in H.
Qed.

(** Two string constants differ. *)
Ltac str_neq :=
  let H := fresh in
  intros H; apply String.eqb_eq in H; vm_compute in H; discriminate H.

Lemma tree_a_destination_empty name : files tree_a !! (destination, name) = None.
Proof.
  unfold tree_a. simpl.
  rewrite !lookup_insert_ne; [apply lookup_empty|..];
    intros [= H _]; revert H; str_neq.
Qed.

(** C2.  A file with a collected name whose name is taken in the
    destination is copied to [base_N ext], where [(base, ext)] is the
    split of its name by [os.path.splitext] and [N >= 1] is the least
    count whose name is free: the names of all smaller counts are taken.
    With [a.cnf] at the root and in two sub-directories of the tree and
    nothing in the destination, the destination ends up with exactly
    [a.cnf], [a_1.cnf] and [a_2.cnf]. *)
Theorem collector_collision_rename :
  (∀ root file s,
     is_collected file = true →
     is_Some (files s !! (destination, file)) →
     ∃ N, 1 ≤ N ∧
          file = (Py.splitext file).1 +:+ (Py.splitext file).2 ∧
          (∀ M, 1 ≤ M < N →
             is_Some (files s !! (destination,
                        new_name (Py.splitext file).1 (Py.splitext file).2 M))) ∧
          files s !! (destination,
             new_name (Py.splitext file).1 (Py.splitext file).2 N) = None ∧
          collect_file root file s =
            copy2 (root, file)
              (destination, new_name (Py.splitext file).1 (Py.splitext file).2 N) s ∧
          (∀ data, files s !! (root, file) = Some (Regular data) →
                   destination ∈ dirs s →
             (collect_file root file s).1 = Ok tt ∧
             files (collect_file root file s).2 =
               <[(destination, new_name (Py.splitext file).1 (Py.splitext file).2 N)
                 := Regular data]> (files s))) ∧
  ((collector walk_a tree_a).1 = Ok tt ∧
   (∀ name, is_Some (files (collector walk_a tree_a).2 !! (destination, name)) ↔
            name ∈ ["a.cnf"; "a_1.cnf"; "a_2.cnf"]) ∧
   files (collector walk_a tree_a).2 !! (destination, "a.cnf") =
     files tree_a !! (source_root, "a.cnf") ∧
   files (collector walk_a tree_a).2 !! (destination, "a_1.cnf") =
     files tree_a !! (source_root +:+ "\sub", "a.cnf") ∧
   files (collector walk_a tree_a).2 !! (destination, "a_2.cnf") =
     files tree_a !! (source_root +:+ "\sub2", "a.cnf")).
Proof.
  split.
  - intros root file s Hc Hex.
    destruct (collect_file_copy root file s Hc) as (name & [Hfree Hch] & Heq).
    destruct Hch as [->|(_ & N & HN & -> & Hall)].
    { rewrite Hfree in Hex. by destruct Hex. }
    exists N. split; [done|]. split.
    { apply PyFacts.splitext_app. by destruct (Py.splitext file). }
    split; [done|]. split; [done|]. split; [done|].
    intros data Hsrc Hd. rewrite Heq, copy2_spec, Hsrc. simpl.
    rewrite bool_decide_eq_true_2 by done. by rewrite Hfree.
  - assert (copies (collector walk_a tree_a).2 =
            [((source_root, "a.cnf"), (destination, "a.cnf"));
             ((source_root +:+ "\sub", "a.cnf"), (destination, "a_1.cnf"));
             ((source_root +:+ "\sub2", "a.cnf"), (destination, "a_2.cnf"))]) as Hcopies
      by (vm_compute; reflexivity).
    split; [vm_compute; reflexivity|]. split.
    + intros name. split.
      * intros Hex. destruct (collector_spec walk_a tree_a) as [cs H].
        destruct H as [_ _ _ _ Hcs _ _ Honly _ _ _]. simpl in Hcs, Honly.
        rewrite Hcopies in Hcs. subst cs.
        apply Honly in Hex as [Hex|Hex].
        -- rewrite tree_a_destination_empty in Hex. destruct Hex as [? [=]].
        -- simpl in Hex. rewrite !elem_of_cons in Hex. rewrite !elem_of_cons.
           destruct Hex as [[= ->]|[[= ->]|[[= ->]|Hex]]];
             [left; reflexivity|right; left; reflexivity
             |right; right; left; reflexivity|].
           apply elem_of_nil in Hex. destruct Hex.
      * intros Hin. rewrite !elem_of_cons in Hin.
        destruct Hin as [->|[->|[->|Hin]]];
          [eexists; vm_compute; reflexivity..|].
        apply elem_of_nil in Hin. destruct Hin.
    + split; [|split]; vm_compute; reflexivity.
Qed.

Lemma collector_collision_rename_witness :
  ∃ N, 1 ≤ N ∧
       files tree_taken !! (destination,
          new_name (Py.splitext "a.cnf").1 (Py.splitext "a.cnf").2 N) = None ∧
       collect_file (source_root +:+ "\sub2") "a.cnf" tree_taken =
         copy2 (source_root +:+ "\sub2", "a.cnf")
           (destination, new_name (Py.splitext "a.cnf").1 (Py.splitext "a.cnf").2 N)
           tree_taken.
Proof.
  destruct (proj1 collector_collision_rename (source_root +:+ "\sub2") "a.cnf" tree_taken)
    as (N & HN & _ & _ & Hfree & Heq & _).
  - vm_compute. reflexivity.
  - eexists. vm_compute. reflexivity.
  - exists N. exact (conj HN (conj Hfree Heq)).
Defined.

(** C6.  The Collector does not catch the exception of a copy.  When the
    copies of the files before [file] succeed and opening [file] raises
    [e], the run ends with [e] uncaught: nothing is printed, the copies
    made are those of the files before [file], and no other file has
    appeared. *)
Theorem collector_aborts_on_error walk pre root file post e s :
  walk_files walk = pre ++ (root, file) :: post →
  (∀ p, p ∈ pre → is_collected p.2 → ∃ data, files s !! p = Some (Regular data)) →
  is_collected file = true →
  files s !! (root, file) = Some (Unopenable e) →
  (collector walk s).1 = Raise e ∧
  stdout (collector walk s).2 = stdout s ∧
  ∃ cs, copies (collector walk s).2 = copies s ++ cs ∧
        cs.*1 = filter (λ p : path, is_collected p.2) pre ∧
        ∀ p, is_Some (files (collector walk s).2 !! p) →
             is_Some (files s !! p) ∨ p ∈ cs.*2.
Proof.
  intros Hwalk Hpre Hc Hsrc.
  set (s1 := set_dirs (λ ds, {[destination]} ∪ ds) s).
  destruct (collect_all_spec pre s1) as [cs H]; [simpl; set_solver|].
  destruct H. pose proof (col_ok0 Hpre) as Hok.
  assert (collector walk s = (Raise e, (collect_all pre s1).2)) as ->.
  { rewrite collector_unfold, Hwalk. fold s1.
    unfold collect_all in *. rewrite for_each_app. unfold bind at 1.
    destruct (for_each pre _ s1) as [r s2]. simpl in *. subst r.
    unfold bind.
    destruct (collect_file_copy root file s2 Hc) as (name & _ & ->).
    by rewrite copy2_spec, (col_kept0 _ _ Hsrc). }
  simpl. split; [done|]. split; [done|]. exists cs. auto.
Qed.

Lemma collector_aborts_on_error_witness :
  (collector walk_locked tree_locked).1 = Raise "Permission denied" ∧
  stdout (collector walk_locked tree_locked).2 = stdout tree_locked.
Proof.
  destruct (collector_aborts_on_error walk_locked [] source_root "a.cnf"
              [(source_root, "b.cnf")] "Permission denied" tree_locked)
    as (Hr & Hout & _).
  - reflexivity.
  - intros p Hp. apply elem_of_nil in Hp. destruct Hp.
  - vm_compute. reflexivity.
  - vm_compute. reflexivity.
  - exact (conj Hr Hout).
Defined.

(** *** Names of renamed files *)

Lemma app_assoc_str s t u : (s +:+ t) +:+ u = s +:+ t +:+ u.
Proof. apply PyFacts.chars_inj. by rewrite !PyFacts.chars_app, <- app_assoc. Qed.

Lemma lower_tail_chars tail suffix :
  Py.lower tail = suffix → Py.lower_char <$> Py.chars tail = Py.chars suffix.
Proof. intros <-. by rewrite PyFacts.chars_lower. Qed.

(** A name that ends in [.cnf.xz] up to case splits before its last
    three characters. *)
Lemma splitext_cnf_xz file :
  is_extracted file = true →
  ∃ stem c1 c2 c3 c4 c5 c6 c7,
    file = stem +:+ Py.str [c1; c2; c3; c4; c5; c6; c7] ∧
    Py.lower (Py.str [c1; c2; c3; c4; c5; c6; c7]) = ".cnf.xz" ∧
    Py.splitext file = (stem +:+ Py.str [c1; c2; c3; c4], Py.str [c5; c6; c7]).
Proof.
  unfold is_extracted. intros (stem & tail & -> & Hl)%PyFacts.endswith_lower.
  pose proof (lower_tail_chars _ _ Hl) as Hc.
  unfold Py.chars in Hc. simpl in Hc. fold (Py.chars tail) in Hc.
  destruct (Py.chars tail) as [|c1 [|c2 [|c3 [|c4 [|c5 [|c6 [|c7 [|c8 ?]]]]]]]] eqn:Ht;
    try discriminate Hc.
  injection Hc as H1 H2 H3 H4 H5 H6 H7.
  assert (tail = Py.str [c1; c2; c3; c4; c5; c6; c7]) as Htail.
  { by rewrite <- Ht, PyFacts.str_chars. }
  exists stem, c1, c2, c3, c4, c5, c6, c7. rewrite <- Htail.
  split; [done|]. split; [done|].
  apply (proj1 (PyFacts.lower_char_dot c5)) in H5. subst c5.
  assert (stem +:+ tail =
          (stem +:+ Py.str [c1; c2; c3; c4]) +:+ "." +:+ Py.str [c6; c7]) as ->.
  { rewrite Htail. apply PyFacts.chars_inj.
    rewrite !PyFacts.chars_app, !PyFacts.chars_str. by rewrite <- app_assoc. }
  apply PyFacts.splitext_dot.
  - exists c2. split.
    + rewrite PyFacts.chars_app, PyFacts.chars_str. set_solver.
    + intros ->. vm_compute in H2. discriminate H2.
  - rewrite PyFacts.chars_str. intros [<-|[<-|[]%elem_of_nil]%elem_of_cons]%elem_of_cons.
    + vm_compute in H6. discriminate H6.
    + vm_compute in H7. discriminate H7.
Qed.

(** A name that ends in [.cnf] up to case splits before these four
    characters, unless only dots come before them. *)
Lemma splitext_cnf file :
  Py.endswith (Py.lower file) ".cnf" = true →
  ∃ stem d1 d2 d3 d4,
    file = stem +:+ Py.str [d1; d2; d3; d4] ∧
    Py.lower_char d4 = "f"%char ∧
    (Py.splitext file = (stem, Py.str [d1; d2; d3; d4]) ∨
     Py.splitext file = (file, "")).
Proof.
  intros (stem & tail & -> & Hl)%PyFacts.endswith_lower.
  pose proof (lower_tail_chars _ _ Hl) as Hc.
  unfold Py.chars in Hc. simpl in Hc. fold (Py.chars tail) in Hc.
  destruct (Py.chars tail) as [|d1 [|d2 [|d3 [|d4 [|d5 ?]]]]] eqn:Ht;
    try discriminate Hc.
  injection Hc as H1 H2 H3 H4.
  assert (tail = Py.str [d1; d2; d3; d4]) as Htail.
  { by rewrite <- Ht, PyFacts.str_chars. }
  exists stem, d1, d2, d3, d4. rewrite <- Htail.
  split; [done|]. split; [done|].
  apply (proj1 (PyFacts.lower_char_dot d1)) in H1. subst d1.
  assert (tail = "." +:+ Py.str [d2; d3; d4]) as Hdot.
  { rewrite Htail. apply PyFacts.chars_inj.
    by rewrite !PyFacts.chars_app, !PyFacts.chars_str. }
  assert ("."%char ∉ Py.chars (Py.str [d2; d3; d4])) as Hnodot.
  { rewrite PyFacts.chars_str.
    intros [<-|[<-|[<-|[]%elem_of_nil]%elem_of_cons]%elem_of_cons]%elem_of_cons.
    - vm_compute in H2. discriminate H2.
    - vm_compute in H3. discriminate H3.
    - vm_compute in H4. discriminate H4. }
  clear Htail Ht Hl. subst tail.
  destruct (decide (Forall (λ c, c = "."%char) (Py.chars stem))) as [Hd|Hd].
  - right. by apply PyFacts.splitext_dots.
  - left. apply PyFacts.splitext_dot; [|done].
    apply not_Forall_Exists in Hd; [|apply _].
    apply Exists_exists in Hd as (c & Hc & Hne). by exists c.
Qed.

Lemma chars_snoc s c : Py.chars (s +:+ String c "") = Py.chars s ++ [c].
Proof. by rewrite PyFacts.chars_app. Qed.

(** The last character of a renamed [.cnf.xz] file is a [z]. *)
Lemma new_name_last_xz file N :
  is_extracted file = true →
  ∃ pre c, Py.chars (new_name (Py.splitext file).1 (Py.splitext file).2 N) = pre ++ [c] ∧
           Py.lower_char c = "z"%char.
Proof.
  intros (stem & c1 & c2 & c3 & c4 & c5 & c6 & c7 & _ & Hl & ->)%splitext_cnf_xz.
  apply lower_tail_chars in Hl. rewrite PyFacts.chars_str in Hl.
  injection Hl as _ _ _ _ _ _ H7.
  unfold new_name. cbn [fst snd].
  exists (Py.chars (stem +:+ Py.str [c1; c2; c3; c4]) ++ Py.chars "_" ++
          Py.chars (Py.format_int N) ++ [c5; c6]), c7.
  split; [|done].
  rewrite !PyFacts.chars_app, PyFacts.chars_str. by rewrite <- !app_assoc.
Qed.

(** The last character of a renamed [.cnf] file is an [f] or a digit. *)
Lemma new_name_last_cnf file M :
  Py.endswith (Py.lower file) ".cnf" = true →
  ∃ pre c, Py.chars (new_name (Py.splitext file).1 (Py.splitext file).2 M) = pre ++ [c] ∧
           (Py.lower_char c = "f"%char ∨ is_Some (Ascii.is_nat c)).
Proof.
  intros (stem & d1 & d2 & d3 & d4 & _ & H4 & [->| ->])%splitext_cnf;
    unfold new_name; cbn [fst snd].
  - exists (Py.chars stem ++ Py.chars "_" ++ Py.chars (Py.format_int M) ++ [d1; d2; d3]), d4.
    split; [|by left].
    rewrite !PyFacts.chars_app, PyFacts.chars_str. by rewrite <- !app_assoc.
  - destruct (PyFacts.format_int_snoc M) as (t & c & Hc & ->).
    exists (Py.chars file ++ Py.chars "_" ++ Py.chars t), c. split; [|by right].
    rewrite !PyFacts.chars_app. change (Py.chars "") with (@nil ascii).
    change (Py.chars (String c "")) with [c].
    by rewrite app_nil_r, <- !app_assoc.
Qed.

Lemma digit_not_z c : is_Some (Ascii.is_nat c) → Py.lower_char c ≠ "z"%char.
Proof.
  intros [n Hn].
  destruct c as [[] [] [] [] [] [] [] []]; simpl in Hn; try discriminate Hn;
    vm_compute; discriminate.
Qed.

Lemma lower_f_not_z c : Py.lower_char c = "f"%char → Py.lower_char c ≠ "z"%char.
Proof. intros ->. discriminate. Qed.

Lemma splitext_name_cnf_xz name :
  Py.splitext (name +:+ ".cnf.xz") = (name +:+ ".cnf", ".xz").
Proof.
  assert (name +:+ ".cnf.xz" = (name +:+ ".cnf") +:+ "." +:+ "xz") as ->.
  { apply PyFacts.chars_inj. rewrite !PyFacts.chars_app. by rewrite <- app_assoc. }
  apply PyFacts.splitext_dot.
  - exists "c"%char. split; [|discriminate].
    rewrite PyFacts.chars_app. apply elem_of_app. right. simpl. set_solver.
  - simpl. intros [[=]|[[=]|[]%elem_of_nil]%elem_of_cons]%elem_of_cons.
Qed.

(** C9.  The rename splits off the last extension only.  For a file
    [name.cnf.xz] the count goes between [.cnf] and [.xz]: the name of
    count [N] is [name.cnf_N.xz], and that is where a colliding
    [name.cnf.xz] is copied.  The new name of a file that ends in
    [.cnf.xz] and the new name of a file that ends in [.cnf], up to case,
    are never equal. *)
Theorem collector_rename_last_extension :
  (∀ name N,
     new_name (Py.splitext (name +:+ ".cnf.xz")).1
              (Py.splitext (name +:+ ".cnf.xz")).2 N =
     name +:+ ".cnf" +:+ "_" +:+ Py.format_int N +:+ ".xz") ∧
  (∀ root name s,
     is_Some (files s !! (destination, name +:+ ".cnf.xz")) →
     ∃ N, 1 ≤ N ∧
          collect_file root (name +:+ ".cnf.xz") s =
          copy2 (root, name +:+ ".cnf.xz")
            (destination, name +:+ ".cnf" +:+ "_" +:+ Py.format_int N +:+ ".xz") s) ∧
  (∀ f g N M,
     Py.endswith (Py.lower f) ".cnf.xz" = true →
     Py.endswith (Py.lower g) ".cnf" = true →
     new_name (Py.splitext f).1 (Py.splitext f).2 N ≠
     new_name (Py.splitext g).1 (Py.splitext g).2 M).
Proof.
  assert (∀ name N,
     new_name (Py.splitext (name +:+ ".cnf.xz")).1
              (Py.splitext (name +:+ ".cnf.xz")).2 N =
     name +:+ ".cnf" +:+ "_" +:+ Py.format_int N +:+ ".xz") as Hname.
  { intros name N. rewrite splitext_name_cnf_xz. unfold new_name. simpl.
    by rewrite app_assoc_str. }
  split; [done|]. split.
  - intros root name s Hex.
    assert (is_collected (name +:+ ".cnf.xz") = true) as Hc.
    { unfold is_collected. apply orb_true_iff. right.
      apply PyFacts.endswith_lower. exists name, ".cnf.xz". split; [done|].
      vm_compute. reflexivity. }
    destruct (collect_file_copy root _ s Hc) as (new & [Hfree Hch] & ->).
    destruct Hch as [->|(_ & N & HN & -> & _)].
    { rewrite Hfree in Hex. by destruct Hex. }
    exists N. split; [done|]. by rewrite Hname.
  - intros f g N M Hf Hg Heq.
    destruct (new_name_last_xz f N Hf) as (pre & c & Hpre & Hz).
    destruct (new_name_last_cnf g M Hg) as (pre' & c' & Hpre' & Hc').
    rewrite Heq, Hpre' in Hpre. apply app_inj_tail in Hpre as [_ <-].
    destruct Hc' as [Hc'|Hc'].
    + by apply lower_f_not_z in Hc'.
    + by apply digit_not_z in Hc'.
Qed.

Lemma collector_rename_last_extension_witness :
  new_name (Py.splitext "a.cnf.xz").1 (Py.splitext "a.cnf.xz").2 1 ≠
  new_name (Py.splitext "a.cnf").1 (Py.splitext "a.cnf").2 1.
Proof.
  apply (proj2 (proj2 collector_rename_last_extension) "a.cnf.xz" "a.cnf" 1 1).
  - vm_compute. reflexivity.
  - vm_compute. reflexivity.
Defined.

(** ** The Extractor *)

Lemma folders_differ : source_folder ≠ destination_folder.
Proof. str_neq. Qed.

Section ExtractorFacts.

Variable lzma_decompress : list byte → exn + list byte.

Local Abbreviation extract_file := (extract_file lzma_decompress).
Local Abbreviation extract_body := (extract_body lzma_decompress).
Local Abbreviation extractor := (extractor lzma_decompress).
Local Abbreviation extract_write := (extract_write lzma_decompress).
Local Abbreviation extract_lines := (extract_lines lzma_decompress).
Local Abbreviation extract_all := (extract_all lzma_decompress).

(** One round never raises: it leaves at most one file and prints at
    most one line. *)
Lemma extract_file_run file s :
  extract_file file s =
  (Ok tt, mkState (dirs s) (apply_write (extract_write s file) (files s))
                  (copies s) (stdout s ++ extract_lines s file)).
Proof.
  unfold extract_file, extract_write, extract_lines,
    is_extracted.
  destruct (Py.endswith (Py.lower file) ".cnf.xz").
  2:{ unfold ret. destruct s. simpl. by rewrite app_nil_r. }
  unfold try_except, extract_body, bind, open_rb, open_wb, lzma_read,
    write, print, raise, ret.
  destruct (files s !! (source_folder, file)) as [[data|e]|]; try done.
  simpl. case_bool_decide; [|done].
  destruct (files s !! (destination_folder, Py.slice_to_minus 3 file))
    as [[old|e]|]; try done;
    destruct (lzma_decompress data) as [e|payload]; simpl; try done;
    unfold set_files, set_stdout; simpl; by rewrite alter_insert_eq.
Qed.

Lemma extract_all_cons file l s :
  extract_all (file :: l) s = extract_all l (extract_file file s).2.
Proof.
  unfold extract_all. simpl. unfold bind.
  by rewrite extract_file_run.
Qed.

Lemma extract_all_app l1 l2 s :
  extract_all (l1 ++ l2) s = extract_all l2 (extract_all l1 s).
Proof.
  revert s. induction l1 as [|f l1 IH]; intros s; [done|].
  simpl. by rewrite !extract_all_cons, IH.
Qed.

Lemma for_each_extract l s :
  for_each l extract_file s = (Ok tt, extract_all l s).
Proof.
  revert s. induction l as [|f l IH]; intros s; [done|].
  rewrite extract_all_cons. simpl. unfold bind.
  rewrite extract_file_run. simpl. apply IH.
Qed.

Lemma extractor_unfold listing s :
  extractor listing s =
  (Ok tt,
   set_stdout (λ out, out ++ [AllExtracted])
     (extract_all listing (set_dirs (λ ds, {[destination_folder]} ∪ ds) s))).
Proof.
  unfold extractor, bind, makedirs, print. by rewrite for_each_extract.
Qed.

(** *** States the Extractor cannot tell apart *)

Lemma same_env_refl s : same_env s s.
Proof. by split. Qed.

Lemma same_env_trans s t u : same_env s t → same_env t u → same_env s u.
Proof.
  intros (Hd1 & Hf1 & Hu1) (Hd2 & Hf2 & Hu2). split; [congruence|]. split.
  - intros p Hp. by rewrite Hf1, Hf2.
  - intros p e. by rewrite Hu1, Hu2.
Qed.

Lemma extract_write_env s t file :
  same_env s t → extract_write s file = extract_write t file.
Proof.
  intros (Hd & Hf & Hu). unfold extract_write.
  destruct (is_extracted file); [|done].
  rewrite <- (Hf (source_folder, file)) by apply folders_differ.
  destruct (files s !! (source_folder, file)) as [[data|e]|]; try done.
  rewrite <- Hd. case_bool_decide; [|done].
  destruct (files s !! (destination_folder, Py.slice_to_minus 3 file))
    as [[old|e]|] eqn:Hs;
    destruct (files t !! (destination_folder, Py.slice_to_minus 3 file))
    as [[old'|e']|] eqn:Ht; try done.
  - apply Hu in Ht. congruence.
  - apply Hu in Hs. congruence.
  - apply Hu in Hs. congruence.
  - apply Hu in Ht. congruence.
Qed.

Lemma extract_write_envs s t (l : list string) :
  same_env s t → omap (extract_write s) l = omap (extract_write t) l.
Proof.
  intros H. apply list_omap_ext. apply Forall2_same_length_lookup.
  split; [done|]. intros i x y Hx Hy. simplify_eq. by apply extract_write_env.
Qed.

Lemma extract_lines_env s t file :
  same_env s t → extract_lines s file = extract_lines t file.
Proof.
  intros (Hd & Hf & Hu). unfold extract_lines.
  destruct (is_extracted file); [|done].
  rewrite <- (Hf (source_folder, file)) by apply folders_differ.
  destruct (files s !! (source_folder, file)) as [[data|e]|]; try done.
  rewrite <- Hd. case_bool_decide; [|done].
  destruct (files s !! (destination_folder, Py.slice_to_minus 3 file))
    as [[old|e]|] eqn:Hs;
    destruct (files t !! (destination_folder, Py.slice_to_minus 3 file))
    as [[old'|e']|] eqn:Ht; try done.
  - apply Hu in Ht. congruence.
  - apply Hu in Hs. congruence.
  - apply Hu in Hs. rewrite Hs in Ht. by simplify_eq.
  - apply Hu in Hs. congruence.
  - apply Hu in Ht. congruence.
Qed.

(** What a round writes is a regular file of the destination folder,
    at a place that could be opened. *)
Lemma extract_write_Some s file k v :
  extract_write s file = Some (k, v) →
  is_extracted file = true ∧
  k = (destination_folder, Py.slice_to_minus 3 file) ∧
  (∃ data, v = Regular data) ∧
  ∀ e, files s !! k ≠ Some (Unopenable e).
Proof.
  unfold extract_write. intros H.
  destruct (is_extracted file); [|done].
  destruct (files s !! (source_folder, file)) as [[data|e]|]; try done.
  case_bool_decide; [|done].
  destruct (files s !! (destination_folder, Py.slice_to_minus 3 file))
    as [[old|e]|] eqn:Hs; simplify_eq; rewrite Hs; eauto 10.
Qed.

Lemma extract_file_env file s : same_env s (extract_file file s).2.
Proof.
  rewrite extract_file_run. simpl.
  destruct (extract_write s file) as [[k v]|] eqn:Hw; [|by split].
  apply extract_write_Some in Hw as (_ & -> & [data ->] & Hu).
  split; [done|]. split; simpl.
  - intros p Hp. rewrite lookup_insert_ne; [done|]. intros <-. by apply Hp.
  - intros p e. destruct (decide ((destination_folder, Py.slice_to_minus 3 file) = p)) as [<-|Hne].
    + rewrite lookup_insert_eq. split; [by intros ?%Hu|done].
    + by rewrite lookup_insert_ne.
Qed.

Lemma extract_all_env l s : same_env s (extract_all l s).
Proof.
  revert s. induction l as [|f l IH]; intros s; [apply same_env_refl|].
  rewrite extract_all_cons. eapply same_env_trans; [apply extract_file_env|apply IH].
Qed.

(** *** A run as a list of writes *)

Lemma apply_writes_snoc ws w m :
  apply_writes (ws ++ [w]) m = <[w.1 := w.2]> (apply_writes ws m).
Proof. unfold apply_writes. by rewrite foldl_app. Qed.

Lemma apply_writes_ne ws m k :
  (∀ w, w ∈ ws → w.1 ≠ k) → apply_writes ws m !! k = m !! k.
Proof.
  induction ws as [|w ws IH] using rev_ind; intros H; [done|].
  rewrite apply_writes_snoc, lookup_insert_ne.
  - apply IH. intros w' Hw'. apply H. apply elem_of_app. by left.
  - apply H. apply elem_of_app. right. by apply list_elem_of_singleton.
Qed.

Lemma apply_writes_same ws m k v :
  (k, v) ∈ ws → (∀ v', (k, v') ∈ ws → v' = v) →
  apply_writes ws m !! k = Some v.
Proof.
  induction ws as [|[k' v'] ws IH] using rev_ind; intros Hin Hall.
  { by apply elem_of_nil in Hin. }
  rewrite apply_writes_snoc. simpl.
  destruct (decide (k' = k)) as [->|Hne].
  - rewrite lookup_insert_eq. f_equal. apply Hall.
    apply elem_of_app. right. by apply list_elem_of_singleton.
  - rewrite lookup_insert_ne by done. apply IH.
    + apply elem_of_app in Hin as [Hin|Hin]; [done|].
      apply list_elem_of_singleton in Hin. congruence.
    + intros v'' Hv. apply Hall. apply elem_of_app. by left.
Qed.

Lemma apply_writes_Some ws m k v :
  apply_writes ws m !! k = Some v → m !! k = Some v ∨ (k, v) ∈ ws.
Proof.
  induction ws as [|[k' v'] ws IH] using rev_ind; intros H; [by left|].
  rewrite apply_writes_snoc in H. simpl in H.
  destruct (decide (k' = k)) as [->|Hne].
  - rewrite lookup_insert_eq in H. simplify_eq. right.
    apply elem_of_app. right. by apply list_elem_of_singleton.
  - rewrite lookup_insert_ne in H by done.
    destruct (IH H) as [?|?]; [by left|]. right. apply elem_of_app. by left.
Qed.

Lemma apply_writes_is_Some ws m k :
  is_Some (m !! k) → is_Some (apply_writes ws m !! k).
Proof.
  induction ws as [|[k' v'] ws IH] using rev_ind; intros H; [done|].
  rewrite apply_writes_snoc. simpl. apply lookup_insert_is_Some'. right. by apply IH.
Qed.

Lemma apply_writes_union ws m :
  apply_writes ws m = list_to_map (reverse ws) ∪ m.
Proof.
  induction ws as [|[k v] ws IH] using rev_ind.
  { simpl. by rewrite (left_id_L ∅ (∪)). }
  rewrite apply_writes_snoc, reverse_snoc, IH. simpl.
  by rewrite insert_union_l.
Qed.

Lemma apply_writes_idemp ws m :
  apply_writes ws (apply_writes ws m) = apply_writes ws m.
Proof.
  rewrite !apply_writes_union.
  by rewrite (assoc_L (∪)), (idemp_L (∪)).
Qed.

(** A run of the loop from a state [t] that looks like [s]: the writes
    and the lines are those read off [s]. *)
Lemma extract_all_state l s t :
  same_env s t →
  dirs (extract_all l t) = dirs t ∧
  copies (extract_all l t) = copies t ∧
  files (extract_all l t) = apply_writes (omap (extract_write s) l) (files t) ∧
  stdout (extract_all l t) = stdout t ++ (l ≫= extract_lines s).
Proof.
  revert t. induction l as [|f l IH]; intros t Hst.
  { unfold extract_all. simpl. by rewrite app_nil_r. }
  rewrite extract_all_cons.
  destruct (IH (extract_file f t).2) as (Hd & Hc & Hf & Ho).
  { eapply same_env_trans; [done|apply extract_file_env]. }
  rewrite Hd, Hc, Hf, Ho, extract_file_run. simpl.
  rewrite <- (extract_write_env s t), <- (extract_lines_env s t) by done.
  split; [done|]. split; [done|]. split.
  - by destruct (extract_write s f) as [[k v]|].
  - by rewrite <- app_assoc.
Qed.

Lemma apply_writes_keep ws m k v :
  m !! k = Some v → (∀ v', (k, v') ∈ ws → v' = v) →
  apply_writes ws m !! k = Some v.
Proof.
  induction ws as [|[k' v'] ws IH] using rev_ind; intros Hm Hall; [done|].
  rewrite apply_writes_snoc. simpl.
  destruct (decide (k' = k)) as [->|Hne].
  - rewrite lookup_insert_eq. f_equal. apply Hall.
    apply elem_of_app. right. by apply list_elem_of_singleton.
  - rewrite lookup_insert_ne by done. apply IH; [done|].
    intros v'' Hv. apply Hall. apply elem_of_app. by left.
Qed.

(** The state in which the loop is entered. *)
Lemma makedirs_state s :
  (makedirs destination_folder s).2 =
  set_dirs (λ ds, {[destination_folder]} ∪ ds) s.
Proof. done. Qed.

Lemma extract_valid s file data payload :
  is_extracted file = true →
  files s !! (source_folder, file) = Some (Regular data) →
  lzma_decompress data = inr payload →
  destination_folder ∈ dirs s →
  (∀ e, files s !! (destination_folder, Py.slice_to_minus 3 file)
        ≠ Some (Unopenable e)) →
  extract_write s file =
    Some ((destination_folder, Py.slice_to_minus 3 file), Regular payload) ∧
  extract_lines s file = [Extracted file (Py.slice_to_minus 3 file)].
Proof.
  intros Hx Hsrc Hz Hd Hu. unfold extract_write, extract_lines.
  rewrite Hx, Hsrc, Hz, bool_decide_eq_true_2 by done.
  destruct (files s !! (destination_folder, Py.slice_to_minus 3 file))
    as [[old|e]|] eqn:Hs; try done. by destruct (Hu e).
Qed.

(** The writes of a run are those of its extracted files. *)
Lemma elem_of_writes s (l : list string) k v :
  (k, v) ∈ omap (extract_write s) l →
  ∃ g, g ∈ l ∧ is_extracted g = true ∧ extract_write s g = Some (k, v) ∧
       k = (destination_folder, Py.slice_to_minus 3 g).
Proof.
  intros (g & Hg & Hw)%list_elem_of_omap. exists g.
  pose proof (extract_write_Some _ _ _ _ Hw) as (Hx & Hk & _). done.
Qed.

(** Whatever the [try] block raises is what the round prints. *)
Lemma extract_body_raise s file e :
  is_extracted file = true →
  (extract_body file (Py.slice_to_minus 3 file) s).1 = Raise e →
  extract_lines s file = [ErrorExtracting file e].
Proof.
  intros Hx. unfold extract_lines, extract_body, bind, open_rb, open_wb,
    lzma_read, write, print, raise, ret. rewrite Hx.
  destruct (files s !! (source_folder, file)) as [[data|e']|]; simpl;
    [|by intros [= ->]..].
  case_bool_decide; [|by intros [= ->]].
  destruct (files s !! (destination_folder, Py.slice_to_minus 3 file))
    as [[old|e']|]; simpl;
    destruct (lzma_decompress data) as [e''|payload]; simpl;
    try (by intros [= ->]); done.
Qed.

(** The name of the output is the name of the input without its last
    three characters, which are [.xz] up to case. *)
Lemma cnf_filename_strip file :
  is_extracted file = true →
  ∃ xz, file = Py.slice_to_minus 3 file +:+ xz ∧
        String.length xz = 3 ∧ Py.lower xz = ".xz".
Proof.
  intros (stem & c1 & c2 & c3 & c4 & c5 & c6 & c7 & -> & Hl & _)%splitext_cnf_xz.
  apply lower_tail_chars in Hl. rewrite PyFacts.chars_str in Hl.
  injection Hl as _ _ _ _ H5 H6 H7.
  assert (stem +:+ Py.str [c1; c2; c3; c4; c5; c6; c7] =
          (stem +:+ Py.str [c1; c2; c3; c4]) +:+ Py.str [c5; c6; c7]) as ->.
  { apply PyFacts.chars_inj. rewrite !PyFacts.chars_app, !PyFacts.chars_str.
    by rewrite <- app_assoc. }
  exists (Py.str [c5; c6; c7]).
  change 3 with (String.length (Py.str [c5; c6; c7])) at 1.
  rewrite PyFacts.slice_to_minus_app. split; [done|]. split; [done|].
  apply PyFacts.chars_inj. rewrite PyFacts.chars_lower, PyFacts.chars_str.
  simpl. by rewrite H5, H6, H7.
Qed.

(** *** Claims on the Extractor *)

Lemma entry_env s :
  files (makedirs destination_folder s).2 = files s ∧
  stdout (makedirs destination_folder s).2 = stdout s ∧
  destination_folder ∈ dirs (makedirs destination_folder s).2.
Proof. simpl. split; [done|]. split; [done|]. set_solver. Qed.

(** The destination file of a valid input right after its round, and
    at the end of the rounds that follow when none of them writes
    something else there. *)
Lemma extract_round_output pre file post data payload s :
  is_extracted file = true →
  files s !! (source_folder, file) = Some (Regular data) →
  lzma_decompress data = inr payload →
  (∀ e, files s !! (destination_folder, Py.slice_to_minus 3 file)
        ≠ Some (Unopenable e)) →
  files (extract_all (pre ++ [file]) (makedirs destination_folder s).2)
    !! (destination_folder, Py.slice_to_minus 3 file) = Some (Regular payload) ∧
  ((∀ g, g ∈ post → is_extracted g = true →
         Py.slice_to_minus 3 g = Py.slice_to_minus 3 file → g = file) →
   files (extract_all (pre ++ file :: post) (makedirs destination_folder s).2)
     !! (destination_folder, Py.slice_to_minus 3 file) = Some (Regular payload)).
Proof.
  intros Hx Hsrc Hz Hu.
  destruct (entry_env s) as (Hf & _ & Hd).
  set (s1 := (makedirs destination_folder s).2) in *.
  assert (extract_write s1 file =
          Some ((destination_folder, Py.slice_to_minus 3 file), Regular payload))
    as Hw.
  { apply (extract_valid s1 file data payload); [done| |done|done|].
    - by rewrite Hf.
    - intros e. by rewrite Hf. }
  assert (files (extract_all (pre ++ [file]) s1)
            !! (destination_folder, Py.slice_to_minus 3 file)
          = Some (Regular payload)) as Hafter.
  { rewrite extract_all_app.
    destruct (extract_all_state [file] s1 (extract_all pre s1)) as (_ & _ & -> & _).
    { apply extract_all_env. }
    simpl. rewrite Hw. simpl. by rewrite lookup_insert_eq. }
  split; [done|]. intros Hpost.
  replace (pre ++ file :: post) with ((pre ++ [file]) ++ post)
    by (by rewrite <- app_assoc).
  rewrite extract_all_app.
  destruct (extract_all_state post s1 (extract_all (pre ++ [file]) s1))
    as (_ & _ & -> & _).
  { apply extract_all_env. }
  apply apply_writes_keep; [done|].
  intros v' (g & Hg & Hxg & Hwg & Hk)%elem_of_writes.
  injection Hk as Hk. rewrite (Hpost g Hg Hxg) in Hwg by done. congruence.
Qed.

(** C3.  For a file of the source folder whose name ends in [.cnf.xz]
    up to case, that can be read and decodes to [payload], and whose
    output can be opened: the name of the output is the name of the
    file without its last three characters, which are [.xz] up to case;
    right after the round for the file the output holds exactly
    [payload]; and it does so at the end of the run, unless a later file
    of the listing has the same output name.  In particular a folder
    with [x.cnf.xz], which decodes to [hello], gives [x.cnf] with
    contents [hello]. *)
Theorem extractor_output_correct :
  (∀ pre file post data payload s,
     is_extracted file = true →
     files s !! (source_folder, file) = Some (Regular data) →
     lzma_decompress data = inr payload →
     (∀ e, files s !! (destination_folder, Py.slice_to_minus 3 file)
           ≠ Some (Unopenable e)) →
     (∃ xz, file = Py.slice_to_minus 3 file +:+ xz ∧ Py.lower xz = ".xz") ∧
     files (extract_all (pre ++ [file]) (makedirs destination_folder s).2)
       !! (destination_folder, Py.slice_to_minus 3 file) = Some (Regular payload) ∧
     ((∀ g, g ∈ post → is_extracted g = true →
            Py.slice_to_minus 3 g = Py.slice_to_minus 3 file → g = file) →
      files (extractor (pre ++ file :: post) s).2
        !! (destination_folder, Py.slice_to_minus 3 file) = Some (Regular payload))) ∧
  (∀ compressed s,
     files s !! (source_folder, "x.cnf.xz") = Some (Regular compressed) →
     lzma_decompress compressed = inr (list_byte_of_string "hello") →
     (∀ e, files s !! (destination_folder, "x.cnf") ≠ Some (Unopenable e)) →
     files (extractor ["x.cnf.xz"] s).2 !! (destination_folder, "x.cnf") =
       Some (Regular (list_byte_of_string "hello"))).
Proof.
  split.
  - intros pre file post data payload s Hx Hsrc Hz Hu.
    destruct (extract_round_output pre file post data payload s) as [Ha Hb];
      try done.
    split; [|split; [done|]].
    + destruct (cnf_filename_strip file Hx) as (xz & ? & _ & ?). by exists xz.
    + intros Hpost. rewrite extractor_unfold. simpl. by apply Hb.
  - intros compressed s Hsrc Hz Hu.
    assert (is_extracted "x.cnf.xz" = true) as Hx by (vm_compute; reflexivity).
    destruct (extract_round_output [] "x.cnf.xz" [] compressed
                (list_byte_of_string "hello") s) as [_ Hb]; try done.
    rewrite extractor_unfold. simpl. apply Hb.
    intros g Hg. by apply elem_of_nil in Hg.
Qed.

Lemma extractor_stdout listing s :
  stdout (extractor listing s).2 =
  stdout s ++ (listing ≫= extract_lines (makedirs destination_folder s).2)
           ++ [AllExtracted].
Proof.
  rewrite extractor_unfold. simpl.
  destruct (extract_all_state listing (makedirs destination_folder s).2
              (makedirs destination_folder s).2) as (_ & _ & _ & Ho).
  { apply same_env_refl. }
  rewrite makedirs_state in Ho. rewrite Ho. simpl. by rewrite <- app_assoc.
Qed.

Lemma extractor_files listing s :
  files (extractor listing s).2 =
  apply_writes (omap (extract_write (makedirs destination_folder s).2) listing)
               (files s).
Proof.
  rewrite extractor_unfold. simpl.
  destruct (extract_all_state listing (makedirs destination_folder s).2
              (makedirs destination_folder s).2) as (_ & _ & Hf & _).
  { apply same_env_refl. }
  rewrite makedirs_state in Hf. by rewrite Hf.
Qed.

(** C4.  The Extractor always runs to its end: the run returns, and
    the last line printed is the closing message.  Whatever exception
    the [try] block raises for a file, in the state the file is reached
    in, is caught and printed with the name of the file, and the run goes
    on.  A file that can be read and decodes, and whose output can be
    opened, has its payload in its output right after its round, whatever
    happened to the files before it; the payload is still there at the
    end of the run when no later file of the listing has the same output
    name. *)
Theorem extractor_failure_policy listing s :
  (extractor listing s).1 = Ok tt ∧
  last (stdout (extractor listing s).2) = Some AllExtracted ∧
  (∀ pre file post e,
     listing = pre ++ file :: post →
     is_extracted file = true →
     (extract_body file (Py.slice_to_minus 3 file)
        (extract_all pre (makedirs destination_folder s).2)).1 = Raise e →
     ErrorExtracting file e ∈ stdout (extractor listing s).2) ∧
  (∀ pre file post data payload,
     listing = pre ++ file :: post →
     is_extracted file = true →
     files s !! (source_folder, file) = Some (Regular data) →
     lzma_decompress data = inr payload →
     (∀ e, files s !! (destination_folder, Py.slice_to_minus 3 file)
           ≠ Some (Unopenable e)) →
     files (extract_all (pre ++ [file]) (makedirs destination_folder s).2)
       !! (destination_folder, Py.slice_to_minus 3 file) = Some (Regular payload) ∧
     ((∀ g, g ∈ post → is_extracted g = true →
            Py.slice_to_minus 3 g = Py.slice_to_minus 3 file → g = file) →
      files (extractor listing s).2
        !! (destination_folder, Py.slice_to_minus 3 file) = Some (Regular payload))).
Proof.
  split; [by rewrite extractor_unfold|]. split.
  { rewrite extractor_stdout, !app_assoc. apply last_snoc. }
  split.
  - intros pre file post e -> Hx Hraise.
    apply extract_body_raise in Hraise; [|done].
    rewrite <- (extract_lines_env (makedirs destination_folder s).2) in Hraise
      by apply extract_all_env.
    rewrite extractor_stdout. apply elem_of_app. right. apply elem_of_app. left.
    apply list_elem_of_bind. exists file. split.
    + rewrite Hraise. by apply list_elem_of_singleton.
    + apply elem_of_app. right. by left.
  - intros pre file post data payload -> Hx Hsrc Hz Hu.
    destruct (extract_round_output pre file post data payload s) as [Ha Hb];
      try done.
    split; [done|].
    intros Hpost. rewrite extractor_unfold. simpl. by apply Hb.
Qed.

(** C5.  A second run of the Extractor on the same listing leaves every
    file as the first run left it. *)
Theorem extractor_idempotent listing s :
  files (extractor listing (extractor listing s).2).2 =
  files (extractor listing s).2.
Proof.
  rewrite (extractor_files listing (extractor listing s).2).
  rewrite (extractor_files listing s).
  rewrite <- (extract_write_envs (makedirs destination_folder s).2).
  - apply apply_writes_idemp.
  - rewrite extractor_unfold. simpl.
    destruct (extract_all_env listing (makedirs destination_folder s).2)
      as (Hd & Hf & Hu).
    split; [|by split]. simpl in *. rewrite <- Hd.
    by rewrite (assoc_L (∪)), (idemp_L (∪)).
Qed.

(** C8.  The Extractor does not look whether its output exists.  When
    the output of a readable input is there already, of whatever
    origin, the round opens it for writing, which empties it, and
    leaves in it the payload, or nothing when decoding fails; no file
    appears under another name, and no other file changes. *)
Theorem extractor_overwrites file data old s :
  is_extracted file = true →
  files s !! (source_folder, file) = Some (Regular data) →
  destination_folder ∈ dirs s →
  files s !! (destination_folder, Py.slice_to_minus 3 file) = Some (Regular old) →
  open_wb (destination_folder, Py.slice_to_minus 3 file) s =
    (Ok (destination_folder, Py.slice_to_minus 3 file),
     set_files (insert (destination_folder, Py.slice_to_minus 3 file) (Regular [])) s) ∧
  (extract_file file s).1 = Ok tt ∧
  files (extract_file file s).2 !! (destination_folder, Py.slice_to_minus 3 file) =
    Some (Regular (match lzma_decompress data with
                   | inl _ => []
                   | inr payload => payload
                   end)) ∧
  (∀ p, p ≠ (destination_folder, Py.slice_to_minus 3 file) →
        files (extract_file file s).2 !! p = files s !! p).
Proof.
  intros Hx Hsrc Hd Hold. split.
  { unfold open_wb. simpl. by rewrite bool_decide_eq_true_2, Hold by done. }
  rewrite extract_file_run. simpl. split; [done|].
  unfold extract_write. rewrite Hx, Hsrc, Hold, bool_decide_eq_true_2 by done.
  simpl. split.
  - by rewrite lookup_insert_eq.
  - intros p Hp. by rewrite lookup_insert_ne.
Qed.

(** C10.  The name of the output is the name of the input without its
    last three characters, whatever their case and that of the rest:
    [A.CNF.XZ] is extracted, to [A.CNF], and nothing is written to
    [a.cnf]. *)
Theorem extractor_keeps_case :
  (∀ file,
     is_extracted file = true →
     ∃ xz, file = Py.slice_to_minus 3 file +:+ xz ∧
           String.length xz = 3 ∧ Py.lower xz = ".xz") ∧
  is_extracted "A.CNF.XZ" = true ∧
  Py.slice_to_minus 3 "A.CNF.XZ" = "A.CNF" ∧
  (∀ data payload s,
     files s !! (source_folder, "A.CNF.XZ") = Some (Regular data) →
     lzma_decompress data = inr payload →
     (∀ e, files s !! (destination_folder, "A.CNF") ≠ Some (Unopenable e)) →
     files (extractor ["A.CNF.XZ"] s).2 !! (destination_folder, "A.CNF") =
       Some (Regular payload) ∧
     files (extractor ["A.CNF.XZ"] s).2 !! (destination_folder, "a.cnf") =
       files s !! (destination_folder, "a.cnf")).
Proof.
  split; [apply cnf_filename_strip|].
  assert (is_extracted "A.CNF.XZ" = true) as Hx by (vm_compute; reflexivity).
  split; [done|]. split; [vm_compute; reflexivity|].
  intros data payload s Hsrc Hz Hu.
  destruct (entry_env s) as (Hf & _ & Hd).
  destruct (extract_valid (makedirs destination_folder s).2 "A.CNF.XZ" data payload)
    as [Hw _]; [done|by rewrite Hf|done|done|intros e; by rewrite Hf|].
  rewrite extractor_files. unfold omap, list_omap. rewrite Hw.
  unfold apply_writes. simpl. split.
  - by rewrite lookup_insert_eq.
  - rewrite lookup_insert_ne; [done|]. intros H.
    apply (f_equal snd) in H. vm_compute in H. discriminate H.
Qed.

(** The Extractor writes under its destination folder only, and
    removes nothing. *)
Lemma extractor_frame listing s :
  dirs (extractor listing s).2 = {[destination_folder]} ∪ dirs s ∧
  (∀ p, p.1 ≠ destination_folder →
        files (extractor listing s).2 !! p = files s !! p) ∧
  (∀ p, is_Some (files s !! p) → is_Some (files (extractor listing s).2 !! p)) ∧
  (∀ file, files (extractor listing s).2 !! (source_folder, file) =
           files s !! (source_folder, file)).
Proof.
  assert (∀ p, p.1 ≠ destination_folder →
               files (extractor listing s).2 !! p = files s !! p) as Hout.
  { intros p Hp. rewrite extractor_files. apply apply_writes_ne.
    intros [k v] (g & _ & _ & _ & ->)%elem_of_writes. simpl. intros <-. by apply Hp. }
  split; [|split; [done|split]].
  - rewrite extractor_unfold. simpl.
    destruct (extract_all_state listing (makedirs destination_folder s).2
                (makedirs destination_folder s).2 (same_env_refl _))
      as (Hd & _).
    rewrite makedirs_state in Hd. by rewrite Hd.
  - intros p Hp. rewrite extractor_files. by apply apply_writes_is_Some.
  - intros file. apply Hout. apply folders_differ.
Qed.

End ExtractorFacts.

Lemma extractor_output_correct_witness :
  files (extractor toy_xz (["bad.cnf.xz"; "locked.cnf.xz"] ++ "x.cnf.xz" :: [])
           folder_mixed).2
    !! (destination_folder, Py.slice_to_minus 3 "x.cnf.xz") =
  Some (Regular (list_byte_of_string "hello")).
Proof.
  destruct (proj1 (extractor_output_correct toy_xz)
              ["bad.cnf.xz"; "locked.cnf.xz"] "x.cnf.xz" [] hello_xz
              (list_byte_of_string "hello") folder_mixed) as (_ & _ & H).
  - vm_compute. reflexivity.
  - vm_compute. reflexivity.
  - vm_compute. reflexivity.
  - intros e He. vm_compute in He. discriminate He.
  - apply H. intros g Hg. apply elem_of_nil in Hg. destruct Hg.
Defined.

Lemma extractor_failure_policy_witness :
  ErrorExtracting "bad.cnf.xz" "Input format not supported by decoder"
    ∈ stdout (extractor toy_xz listing_mixed folder_mixed).2 ∧
  files (extract_all toy_xz (["bad.cnf.xz"; "locked.cnf.xz"] ++ ["x.cnf.xz"])
           (makedirs destination_folder folder_mixed).2)
    !! (destination_folder, Py.slice_to_minus 3 "x.cnf.xz") =
  Some (Regular (list_byte_of_string "hello")).
Proof.
  destruct (extractor_failure_policy toy_xz listing_mixed folder_mixed)
    as (_ & _ & Herr & Hgood).
  split.
  - apply (Herr [] "bad.cnf.xz" ["locked.cnf.xz"; "x.cnf.xz"]).
    + reflexivity.
    + vm_compute. reflexivity.
    + vm_compute. reflexivity.
  - destruct (Hgood ["bad.cnf.xz"; "locked.cnf.xz"] "x.cnf.xz" [] hello_xz
                (list_byte_of_string "hello")) as [H _].
    + reflexivity.
    + vm_compute. reflexivity.
    + vm_compute. reflexivity.
    + vm_compute. reflexivity.
    + intros e He. vm_compute in He. discriminate He.
    + exact H.
Defined.

Lemma extractor_overwrites_witness :
  files (extract_file toy_xz "x.cnf.xz" folder_old).2
    !! (destination_folder, Py.slice_to_minus 3 "x.cnf.xz") =
  Some (Regular (match toy_xz hello_xz with
                 | inl _ => []
                 | inr payload => payload
                 end)).
Proof.
  destruct (extractor_overwrites toy_xz "x.cnf.xz" hello_xz
              (list_byte_of_string "old") folder_old) as (_ & _ & H & _).
  - vm_compute. reflexivity.
  - vm_compute. reflexivity.
  - vm_compute. reflexivity.
  - vm_compute. reflexivity.
  - exact H.
Defined.

Lemma extractor_keeps_case_witness :
  (∃ xz, "A.CNF.XZ" = Py.slice_to_minus 3 "A.CNF.XZ" +:+ xz ∧
         String.length xz = 3 ∧ Py.lower xz = ".xz") ∧
  files (extractor toy_xz ["A.CNF.XZ"] folder_upper).2 !! (destination_folder, "A.CNF") =
    Some (Regular (list_byte_of_string "hello")).
Proof.
  destruct (extractor_keeps_case toy_xz) as (Hname & _ & _ & Hrun).
  split.
  - apply Hname. vm_compute. reflexivity.
  - destruct (Hrun hello_xz (list_byte_of_string "hello") folder_upper) as [H _].
    + vm_compute. reflexivity.
    + vm_compute. reflexivity.
    + intros e He. vm_compute in He. discriminate He.
    + exact H.
Defined.

(** Two inputs with one output name: the second is written over the
    first. *)
Example extractor_same_output_name :
  files (extractor toy_xz ["a.cnf.xz"; "a.cnf.XZ"] folder_twice).2
    !! (destination_folder, "a.cnf") =
    Some (Regular (list_byte_of_string "second")) ∧
  stdout (extractor toy_xz ["a.cnf.xz"; "a.cnf.XZ"] folder_twice).2 =
    [Extracted "a.cnf.xz" "a.cnf"; Extracted "a.cnf.XZ" "a.cnf"; AllExtracted].
Proof. split; vm_compute; reflexivity. Qed.

(** *** Both tools *)

Lemma apply_writes_changed (ws : list (path * node)) (m : gmap path node) k :
  apply_writes ws m !! k ≠ m !! k → ∃ v, (k, v) ∈ ws.
Proof.
  induction ws as [|[k' v'] ws IH] using rev_ind; intros H; [done|].
  rewrite apply_writes_snoc in H. simpl in H.
  destruct (decide (k' = k)) as [->|Hne].
  - exists v'. apply elem_of_app. right. by apply list_elem_of_singleton.
  - rewrite lookup_insert_ne in H by done.
    destruct (IH H) as [v Hv]. exists v. apply elem_of_app. by left.
Qed.

(** The files the Extractor changes are outputs of entries of its
    listing. *)
Lemma extractor_changes_outputs lzma_decompress listing s p :
  files (extractor lzma_decompress listing s).2 !! p ≠ files s !! p →
  ∃ file, file ∈ listing ∧ is_extracted file = true ∧
          p = (destination_folder, Py.slice_to_minus 3 file).
Proof.
  rewrite extractor_files. intros [v Hv]%apply_writes_changed.
  apply elem_of_writes in Hv as (g & Hg & Hx & _ & Hk). by exists g.
Qed.

(** C7 (amended).  The Collector adds its destination folder to the
    directories and changes nothing else but the files of that folder;
    every file that existed keeps its contents, so it only creates new
    files.  The Extractor adds its destination folder and changes nothing
    else but files of that folder, and among them only the outputs of the
    entries of its listing whose names end in [.cnf.xz] up to case, which
    it creates or writes again; no file that existed is removed, and the
    files of its source folder are as before. *)
Theorem tools_frame :
  (∀ walk s,
     dirs (collector walk s).2 = {[destination]} ∪ dirs s ∧
     (∀ p v, files s !! p = Some v → files (collector walk s).2 !! p = Some v) ∧
     (∀ p, p.1 ≠ destination → files (collector walk s).2 !! p = files s !! p)) ∧
  (∀ lzma_decompress listing s,
     dirs (extractor lzma_decompress listing s).2 = {[destination_folder]} ∪ dirs s ∧
     (∀ p, p.1 ≠ destination_folder →
           files (extractor lzma_decompress listing s).2 !! p = files s !! p) ∧
     (∀ p, files (extractor lzma_decompress listing s).2 !! p ≠ files s !! p →
           ∃ file, file ∈ listing ∧ is_extracted file = true ∧
                   p = (destination_folder, Py.slice_to_minus 3 file)) ∧
     (∀ p, is_Some (files s !! p) →
           is_Some (files (extractor lzma_decompress listing s).2 !! p)) ∧
     (∀ file, files (extractor lzma_decompress listing s).2 !! (source_folder, file) =
              files s !! (source_folder, file))).
Proof.
  split.
  - intros walk s. destruct (collector_spec walk s) as [cs H]. destruct H.
    simpl in *. split; [done|]. split; [done|].
    intros p Hp.
    destruct (files (collector walk s).2 !! p) as [v|] eqn:Hv.
    + destruct (col_only0 p) as [[v' Hv']|Hin]; [by rewrite Hv| |].
      * rewrite Hv'. apply col_kept0 in Hv'. congruence.
      * apply col_fresh0 in Hin as [? _]. done.
    + destruct (files s !! p) as [v|] eqn:Hs; [|done].
      apply col_kept0 in Hs. congruence.
  - intros lzma_decompress listing s.
    destruct (extractor_frame lzma_decompress listing s) as (Hd & Hout & Hkeep & Hsrc).
    split; [done|]. split; [done|]. split; [|by split].
    apply extractor_changes_outputs.
Qed.

Lemma tools_frame_witness :
  files (collector walk_a tree_a).2 !! (source_root, "a.cnf") =
    files tree_a !! (source_root, "a.cnf") ∧
  files (extractor toy_xz ["x.cnf.xz"] folder_x).2 !! (source_folder, "x.cnf.xz") =
    files folder_x !! (source_folder, "x.cnf.xz").
Proof.
  destruct tools_frame as [Hc He]. split.
  - destruct (Hc walk_a tree_a) as (_ & _ & H).
    apply (H (source_root, "a.cnf")). simpl. str_neq.
  - destruct (He toy_xz ["x.cnf.xz"] folder_x) as (_ & H & _).
    apply (H (source_folder, "x.cnf.xz")). simpl. str_neq.
Defined.

(** C7 as stated fails for the Extractor, which does not only create new
    files: [x.cnf], which holds [old] before the run, holds [hello] after
    it. *)
Lemma tools_frame_counterexample :
  files folder_old !! (destination_folder, "x.cnf") =
    Some (Regular (list_byte_of_string "old")) ∧
  files (extractor toy_xz ["x.cnf.xz"] folder_old).2 !! (destination_folder, "x.cnf") =
    Some (Regular (list_byte_of_string "hello")) ∧
  ¬ (∀ p v, files folder_old !! p = Some v →
            files (extractor toy_xz ["x.cnf.xz"] folder_old).2 !! p = Some v).
Proof.
  assert (files folder_old !! (destination_folder, "x.cnf") =
            Some (Regular (list_byte_of_string "old"))) as Hold
    by (vm_compute; reflexivity).
  assert (files (extractor toy_xz ["x.cnf.xz"] folder_old).2
            !! (destination_folder, "x.cnf") =
            Some (Regular (list_byte_of_string "hello"))) as Hnew
    by (vm_compute; reflexivity).
  split; [exact Hold|]. split; [exact Hnew|].
  intros H. apply H in Hold. rewrite Hnew in Hold. discriminate Hold.
Qed.

(** * Further properties of the code *)

(** ** The Collector *)

(** X1.  A file with a collected name that is free in the destination is
    copied there under its own name, with its contents, and nothing else
    changes. *)
Theorem collector_keeps_free_name root file data s :
  is_collected file = true →
  files s !! (destination, file) = None →
  files s !! (root, file) = Some (Regular data) →
  destination ∈ dirs s →
  (collect_file root file s).1 = Ok tt ∧
  files (collect_file root file s).2 = <[(destination, file) := Regular data]> (files s) ∧
  copies (collect_file root file s).2 =
    copies s ++ [((root, file), (destination, file))] ∧
  stdout (collect_file root file s).2 = stdout s.
Proof.
  intros Hc Hfree Hsrc Hd.
  destruct (collect_file_copy root file s Hc) as (name & [Hn Hch] & ->).
  destruct Hch as [->|([v Hv] & _)]; [|congruence].
  rewrite copy2_spec, Hsrc. simpl.
  by rewrite bool_decide_eq_true_2, Hfree by done.
Qed.

Lemma collector_keeps_free_name_witness :
  files (collect_file source_root "a.cnf" (makedirs destination tree_a).2).2 =
  <[(destination, "a.cnf") := Regular (list_byte_of_string "p cnf 1 1")]>
    (files (makedirs destination tree_a).2).
Proof.
  destruct (collector_keeps_free_name source_root "a.cnf"
              (list_byte_of_string "p cnf 1 1") (makedirs destination tree_a).2)
    as (_ & H & _).
  - vm_compute. reflexivity.
  - vm_compute. reflexivity.
  - vm_compute. reflexivity.
  - vm_compute. reflexivity.
  - exact H.
Defined.

(** X2.  A run of the Collector never loops for ever: it returns with
    the summary as the one line printed, or it raises with nothing
    printed. *)
Theorem collector_ends walk s :
  (collector walk s).1 = Ok tt ∧
    stdout (collector walk s).2 = stdout s ++ [AllCollected] ∨
  ∃ e, (collector walk s).1 = Raise e ∧ stdout (collector walk s).2 = stdout s.
Proof.
  rewrite collector_unfold.
  destruct (collect_all_spec (walk_files walk)
              (set_dirs (λ ds, {[destination]} ∪ ds) s)) as [cs H];
    [simpl; set_solver|].
  destruct H as [_ Hout Hends _ _ _ _ _ _ _ _].
  destruct (collect_all _ _) as [[[]|e|] s2]; simpl in *.
  - left. by rewrite Hout.
  - right. by exists e.
  - done.
Qed.

(** X3.  The count of a rename is at most the number of files there
    are: the loop tests no more names than there are files, plus one. *)
Theorem collector_rename_bounded root file s :
  is_collected file = true →
  is_Some (files s !! (destination, file)) →
  ∃ N, 1 ≤ N ≤ size (files s) ∧
       collect_file root file s =
       copy2 (root, file)
         (destination, new_name (Py.splitext file).1 (Py.splitext file).2 N) s.
Proof.
  intros Hc Hex.
  destruct (collect_file_copy root file s Hc) as (name & [Hfree Hch] & Heq).
  destruct Hch as [->|(_ & N & HN & -> & Hall)].
  { rewrite Hfree in Hex. by destruct Hex. }
  exists N. split; [|done]. split; [done|].
  destruct (Py.splitext file) as [base ext] eqn:Hsp. simpl in *.
  pose proof (PyFacts.splitext_app _ _ _ Hsp) as ->.
  set (L := (destination, base +:+ ext) ::
            ((λ M, (destination, new_name base ext M)) <$> seq 1 (N - 1))).
  assert (NoDup L) as Hnd.
  { apply NoDup_cons. split.
    - intros (M & HM & _)%list_elem_of_fmap. simplify_eq.
      by eapply new_name_ne.
    - apply NoDup_fmap_2; [|apply NoDup_seq].
      intros n m Hnm. simplify_eq. by eapply new_name_inj. }
  assert (list_to_set L ⊆ dom (files s)) as Hsub.
  { intros q. rewrite elem_of_list_to_set, elem_of_dom. unfold L.
    rewrite elem_of_cons, list_elem_of_fmap.
    intros [->|(M & -> & HM%elem_of_seq)]; [done|]. apply Hall. lia. }
  apply subseteq_size in Hsub.
  rewrite size_list_to_set, size_dom in Hsub by done.
  unfold L in Hsub. simpl in Hsub. rewrite length_fmap, length_seq in Hsub. lia.
Qed.

Lemma collector_rename_bounded_witness :
  ∃ N, 1 ≤ N ≤ size (files tree_taken) ∧
       collect_file (source_root +:+ "\sub2") "a.cnf" tree_taken =
       copy2 (source_root +:+ "\sub2", "a.cnf")
         (destination, new_name (Py.splitext "a.cnf").1 (Py.splitext "a.cnf").2 N)
         tree_taken.
Proof.
  apply (collector_rename_bounded (source_root +:+ "\sub2") "a.cnf" tree_taken).
  - vm_compute. reflexivity.
  - eexists. vm_compute. reflexivity.
Defined.

Lemma collector_dom walk s cs :
  collected (walk_files walk) (set_dirs (λ ds, {[destination]} ∪ ds) s)
    (collector walk s).1 (set_stdout (λ _, stdout s) (collector walk s).2) cs →
  dom (files (collector walk s).2) = dom (files s) ∪ list_to_set cs.*2 ∧
  dom (files s) ## list_to_set cs.*2.
Proof.
  intros H. destruct H. simpl in *. split.
  - apply set_eq. intros p. rewrite elem_of_union, elem_of_list_to_set, !elem_of_dom.
    split.
    + apply col_only0.
    + intros [[v Hv]|Hin]; [by eexists; apply col_kept0|].
      apply list_elem_of_fmap in Hin as ([src dst] & -> & Hin).
      destruct (col_data0 _ _ Hin) as (data & _ & Hdst). by eexists.
  - intros p Hp Hin. apply elem_of_list_to_set in Hin.
    apply col_fresh0 in Hin as [_ Hnone]. apply elem_of_dom in Hp as [v Hv]. congruence.
Qed.

Lemma collector_size walk s :
  (∀ p, p ∈ walk_files walk → is_collected p.2 →
        ∃ data, files s !! p = Some (Regular data)) →
  (collector walk s).1 = Ok tt ∧
  size (files (collector walk s).2) =
    size (files s) + length (filter (λ p : path, is_collected p.2) (walk_files walk)) ∧
  (∀ p v, files s !! p = Some v → files (collector walk s).2 !! p = Some v).
Proof.
  intros Hall. destruct (collector_spec walk s) as [cs H].
  destruct (collector_dom walk s cs H) as [Hdom Hdisj].
  destruct H. simpl in *.
  pose proof (col_ok0 Hall) as Hok. split; [done|]. split; [|done].
  rewrite <- !size_dom, Hdom, size_union by done.
  rewrite size_list_to_set by done.
  by rewrite length_fmap, <- (length_fmap fst cs), (col_all0 Hok).
Qed.

(** X4.  When every file of the walk with a collected name can be read,
    a run adds exactly one file per such file; a second run over the same
    walk ends as well and adds as many again, each file being collected a
    second time under a new name. *)
Theorem collector_adds_one_file_per_match walk s :
  (∀ p, p ∈ walk_files walk → is_collected p.2 →
        ∃ data, files s !! p = Some (Regular data)) →
  size (files (collector walk s).2) =
    size (files s) + length (filter (λ p : path, is_collected p.2) (walk_files walk)) ∧
  (collector walk (collector walk s).2).1 = Ok tt ∧
  size (files (collector walk (collector walk s).2).2) =
    size (files s) + 2 * length (filter (λ p : path, is_collected p.2) (walk_files walk)).
Proof.
  intros Hall. destruct (collector_size walk s Hall) as (_ & Hsize & Hkept).
  destruct (collector_size walk (collector walk s).2) as (Hok & Hsize' & _).
  { intros p Hp Hc. destruct (Hall p Hp Hc) as [data Hd]. exists data. by apply Hkept. }
  split; [done|]. split; [done|]. rewrite Hsize', Hsize. lia.
Qed.

Lemma collector_adds_one_file_per_match_witness :
  size (files (collector walk_a tree_a).2) =
    size (files tree_a) +
    length (filter (λ p : path, is_collected p.2) (walk_files walk_a)).
Proof.
  destruct (collector_adds_one_file_per_match walk_a tree_a) as (H & _).
  - intros p Hp _. unfold walk_files, walk_a in Hp. simpl in Hp.
    apply elem_of_cons in Hp as [->|Hp]; [eexists; vm_compute; reflexivity|].
    apply elem_of_cons in Hp as [->|Hp]; [eexists; vm_compute; reflexivity|].
    apply elem_of_cons in Hp as [->|Hp]; [eexists; vm_compute; reflexivity|].
    apply elem_of_nil in Hp. destruct Hp.
  - exact H.
Defined.

Lemma collect_all_sources l s :
  ∃ cs, copies (collect_all l s).2 = copies s ++ cs ∧
        cs.*1 `prefix_of` filter (λ p : path, is_collected p.2) l ∧
        ∀ src dst, (src, dst) ∈ cs → dst.1 = destination.
Proof.
  revert s. induction l as [|[root file] l IH]; intros s.
  { exists []. simpl. rewrite app_nil_r. split; [done|]. split; [done|].
    intros src dst H. by apply elem_of_nil in H. }
  unfold collect_all in *. simpl. unfold bind.
  destruct (is_collected file) eqn:Hx.
  2:{ rewrite collect_file_skip by done. destruct (IH s) as (cs & Hcs & Hpre & Hd).
      exists cs. split; [done|]. split; [|done].
      rewrite filter_cons_False; [done|]. simpl. rewrite Hx. intros []. }
  rewrite filter_cons_True. 2:{ simpl. rewrite Hx. exact I. }
  destruct (collect_file_copy root file s Hx) as (name & _ & ->).
  rewrite copy2_spec. simpl.
  assert (∃ cs, copies s = copies s ++ cs ∧
                cs.*1 `prefix_of` (root, file) :: filter (λ p : path, is_collected p.2) l ∧
                ∀ src dst, (src, dst) ∈ cs → dst.1 = destination) as Hstop.
  { exists []. rewrite app_nil_r. split; [done|]. split; [apply prefix_nil|].
    intros src dst H. by apply elem_of_nil in H. }
  destruct (files s !! (root, file)) as [[data|e]|]; [|done..].
  case_bool_decide; [|done].
  assert (∀ s1, copies s1 = copies s ++ [((root, file), (destination, name))] →
    ∃ cs, copies (for_each l (λ p : path, collect_file p.1 p.2) s1).2 = copies s ++ cs ∧
          cs.*1 `prefix_of` (root, file) :: filter (λ p : path, is_collected p.2) l ∧
          ∀ src dst, (src, dst) ∈ cs → dst.1 = destination) as Hgo.
  { intros s1 Hs1. destruct (IH s1) as (cs & Hcs & Hpre & Hd).
    exists (((root, file), (destination, name)) :: cs). split.
    - by rewrite Hcs, Hs1, <- app_assoc.
    - split; [simpl; by apply prefix_cons|].
      intros src dst [[= -> ->]|Hin]%elem_of_cons; [done|]. by eapply Hd. }
  destruct (files s !! (destination, name)) as [[old|e]|]; [|done|]; by apply Hgo.
Qed.

(** X5.  In every run of the Collector the sources of the copies made
    are files of the walk with a collected name, taken in the order of the
    walk without a gap, and every copy goes to the destination folder: a
    file whose name ends neither in [.cnf] nor in [.cnf.xz], up to case, is
    never copied. *)
Theorem collector_copies_only_matching walk s :
  ∃ cs, copies (collector walk s).2 = copies s ++ cs ∧
        cs.*1 `prefix_of` filter (λ p : path, is_collected p.2) (walk_files walk) ∧
        ∀ src dst, (src, dst) ∈ cs →
          src ∈ walk_files walk ∧ is_collected src.2 = true ∧ dst.1 = destination.
Proof.
  destruct (collect_all_sources (walk_files walk)
              (set_dirs (λ ds, {[destination]} ∪ ds) s)) as (cs & Hcs & Hpre & Hd).
  exists cs. split; [|split; [done|]].
  - rewrite collector_unfold.
    by destruct (collect_all _ _) as [[[]| |] s2].
  - intros src dst Hin. split; [|split; [|by eapply Hd]].
    + assert (src ∈ cs.*1) as Hs by (apply list_elem_of_fmap; by exists (src, dst)).
      destruct Hpre as [k Hk]. 
      assert (src ∈ filter (λ p : path, is_collected p.2) (walk_files walk)) as Hf.
      { rewrite Hk. apply elem_of_app. by left. }
      by apply list_elem_of_filter in Hf as [_ ?].
    + assert (src ∈ cs.*1) as Hs by (apply list_elem_of_fmap; by exists (src, dst)).
      destruct Hpre as [k Hk].
      assert (src ∈ filter (λ p : path, is_collected p.2) (walk_files walk)) as Hf.
      { rewrite Hk. apply elem_of_app. by left. }
      apply list_elem_of_filter in Hf as [Hc _]. by apply Is_true_eq_true.
Qed.

Lemma splitext_cnf_cases file :
  Py.endswith (Py.lower file) ".cnf" = true →
  Py.lower (Py.splitext file).2 = ".cnf" ∨
  (Py.splitext file).2 = "" ∧
    ∃ dots tail, file = dots +:+ tail ∧
                 Forall (λ c, c = "."%char) (Py.chars dots) ∧ Py.lower tail = ".cnf".
Proof.
  intros (stem & tail & -> & Hl)%PyFacts.endswith_lower.
  pose proof (lower_tail_chars _ _ Hl) as Hc.
  unfold Py.chars in Hc. simpl in Hc. fold (Py.chars tail) in Hc.
  destruct (Py.chars tail) as [|d1 [|d2 [|d3 [|d4 [|d5 ?]]]]] eqn:Ht;
    try discriminate Hc.
  injection Hc as H1 H2 H3 H4.
  assert (tail = Py.str [d1; d2; d3; d4]) as Htail.
  { by rewrite <- Ht, PyFacts.str_chars. }
  apply (proj1 (PyFacts.lower_char_dot d1)) in H1. subst d1.
  assert (tail = "." +:+ Py.str [d2; d3; d4]) as Hdot.
  { rewrite Htail. apply PyFacts.chars_inj.
    by rewrite !PyFacts.chars_app, !PyFacts.chars_str. }
  assert ("."%char ∉ Py.chars (Py.str [d2; d3; d4])) as Hnodot.
  { rewrite PyFacts.chars_str.
    intros [<-|[<-|[<-|[]%elem_of_nil]%elem_of_cons]%elem_of_cons]%elem_of_cons.
    - vm_compute in H2. discriminate H2.
    - vm_compute in H3. discriminate H3.
    - vm_compute in H4. discriminate H4. }
  destruct (decide (Forall (λ c, c = "."%char) (Py.chars stem))) as [Hd|Hd].
  - right. split; [|by exists stem, tail].
    rewrite Hdot. by rewrite PyFacts.splitext_dots.
  - left. rewrite Hdot at 1. rewrite PyFacts.splitext_dot; [by rewrite <- Hdot|..|done].
    apply not_Forall_Exists in Hd; [|apply _].
    apply Exists_exists in Hd as (c & Hc & Hne). by exists c.
Qed.

(** X6.  A rename keeps the extension as it is written.  The name of a
    collected file is [base] followed by [ext], its new name of count [N]
    is [base_N] followed by [ext], and [ext] is [.xz] or [.cnf] up to
    case; or it is empty, when nothing but dots comes before [.cnf], and
    the count then goes to the end of the name. *)
Theorem collector_rename_keeps_extension file N :
  is_collected file = true →
  file = (Py.splitext file).1 +:+ (Py.splitext file).2 ∧
  new_name (Py.splitext file).1 (Py.splitext file).2 N =
    (Py.splitext file).1 +:+ "_" +:+ Py.format_int N +:+ (Py.splitext file).2 ∧
  (Py.lower (Py.splitext file).2 = ".xz" ∨
   Py.lower (Py.splitext file).2 = ".cnf" ∨
   (Py.splitext file).2 = "" ∧ (Py.splitext file).1 = file ∧
     ∃ dots tail, file = dots +:+ tail ∧
                  Forall (λ c, c = "."%char) (Py.chars dots) ∧ Py.lower tail = ".cnf").
Proof.
  intros Hc. split.
  { apply PyFacts.splitext_app. by destruct (Py.splitext file). }
  split; [done|].
  unfold is_collected in Hc. apply orb_true_iff in Hc as [Hc|Hc].
  - destruct (splitext_cnf_cases file Hc) as [?|[He Hd]]; [by right; left|].
    right. right. split; [done|]. split; [|done].
    pose proof (PyFacts.splitext_app file (Py.splitext file).1 (Py.splitext file).2) as Hf.
    rewrite He in Hf. 
    assert ((Py.splitext file).1 +:+ "" = (Py.splitext file).1) as Hnil.
    { apply PyFacts.chars_inj. by rewrite PyFacts.chars_app, app_nil_r. }
    rewrite Hnil in Hf. symmetry. apply Hf. rewrite <- He. by destruct (Py.splitext file).
  - left.
    destruct (splitext_cnf_xz file Hc)
      as (stem & c1 & c2 & c3 & c4 & c5 & c6 & c7 & _ & Hl & ->).
    apply lower_tail_chars in Hl. rewrite PyFacts.chars_str in Hl.
    injection Hl as _ _ _ _ H5 H6 H7. cbn [snd].
    apply PyFacts.chars_inj. rewrite PyFacts.chars_lower, PyFacts.chars_str.
    simpl. by rewrite H5, H6, H7.
Qed.

Lemma collector_rename_keeps_extension_witness :
  new_name (Py.splitext "B.Cnf").1 (Py.splitext "B.Cnf").2 7 =
  (Py.splitext "B.Cnf").1 +:+ "_" +:+ Py.format_int 7 +:+ (Py.splitext "B.Cnf").2.
Proof.
  destruct (collector_rename_keeps_extension "B.Cnf" 7) as (_ & H & _).
  - vm_compute. reflexivity.
  - exact H.
Defined.

Lemma collect_all_filter l s :
  collect_all l s = collect_all (filter (λ p : path, is_collected p.2) l) s.
Proof.
  revert s. induction l as [|[root file] l IH]; intros s; [done|].
  destruct (is_collected file) eqn:Hx.
  - rewrite filter_cons_True. 2:{ simpl. rewrite Hx. exact I. }
    unfold collect_all in *. simpl. unfold bind.
    by destruct (collect_file root file s) as [[[]| |] s1].
  - rewrite filter_cons_False. 2:{ simpl. rewrite Hx. intros []. }
    unfold collect_all in *. simpl. unfold bind.
    rewrite collect_file_skip by done. apply IH.
Qed.

Lemma walk_files_filter walk :
  walk_files ((λ d : string * list string,
                 (d.1, filter (λ f, is_collected f) d.2)) <$> walk) =
  filter (λ p : path, is_collected p.2) (walk_files walk).
Proof.
  assert (∀ root fs w, walk_files ((root, fs) :: w) =
                       (pair root <$> fs) ++ walk_files w) as Hcons by done.
  induction walk as [|[root fs] walk IH]; [done|].
  rewrite fmap_cons. cbn [fst snd]. rewrite !Hcons, filter_app, IH. f_equal.
  clear. induction fs as [|f fs IH]; [done|].
  rewrite fmap_cons. destruct (is_collected f) eqn:Hx.
  - rewrite filter_cons_True. 2:{ simpl. rewrite Hx. exact I. }
    rewrite filter_cons_True. 2:{ simpl. rewrite Hx. exact I. }
    by rewrite fmap_cons, IH.
  - rewrite filter_cons_False. 2:{ simpl. rewrite Hx. intros []. }
    rewrite filter_cons_False. 2:{ simpl. rewrite Hx. intros []. }
    done.
Qed.

(** X7.  Files with other names do not count: a run of the Collector is
    the run over the same walk with the names that are not collected left
    out of every directory. *)
Theorem collector_skips_other_names walk s :
  collector walk s =
  collector ((λ d : string * list string,
                (d.1, filter (λ f, is_collected f) d.2)) <$> walk) s.
Proof.
  rewrite !collector_unfold, walk_files_filter.
  by rewrite <- collect_all_filter.
Qed.

Lemma nth_name_inj file i k : nth_name file i = nth_name file k → i = k.
Proof.
  assert (file = (Py.splitext file).1 +:+ (Py.splitext file).2) as Hf.
  { apply PyFacts.splitext_app. by destruct (Py.splitext file). }
  destruct i as [|i], k as [|k]; simpl; intros H; [done|..].
  - symmetry in H. rewrite Hf in H at 3. by apply new_name_ne in H.
  - rewrite Hf in H at 3. by apply new_name_ne in H.
  - by apply new_name_inj in H.
Qed.

(** Files of one name, collected into a destination where the first [j]
    names of the sequence are taken and the others free, get the names
    that follow. *)
Lemma collect_same_name file roots j s :
  is_collected file = true →
  destination ∈ dirs s →
  (∀ r, r ∈ roots → ∃ data, files s !! (r, file) = Some (Regular data)) →
  (∀ i, i < j → is_Some (files s !! (destination, nth_name file i))) →
  (∀ i, j ≤ i → files s !! (destination, nth_name file i) = None) →
  (collect_all ((λ r, (r, file)) <$> roots) s).1 = Ok tt ∧
  copies (collect_all ((λ r, (r, file)) <$> roots) s).2 =
    copies s ++ imap (λ i r, ((r, file), (destination, nth_name file (j + i)))) roots.
Proof.
  intros Hc. revert j s. induction roots as [|r roots IH]; intros j s Hd Hread Htaken Hfree.
  { simpl. by rewrite app_nil_r. }
  unfold collect_all in *. rewrite fmap_cons. simpl. unfold bind.
  destruct (collect_file_copy r file s Hc) as (name & [Hnone Hch] & ->).
  assert (name = nth_name file j) as ->.
  { destruct Hch as [->|([v Hv] & N & HN & -> & Hall)].
    - destruct j as [|j]; [done|].
      destruct (Htaken 0) as [v Hv]; [lia|]. simpl in Hv. congruence.
    - destruct j as [|j].
      { specialize (Hfree 0). simpl in Hfree. rewrite Hfree in Hv by lia. done. }
      destruct N as [|N]; [lia|]. change (new_name _ _ (S N)) with (nth_name file (S N)) in *.
      destruct (decide (S N < S j)) as [Hlt|Hge].
      { destruct (Htaken (S N) Hlt) as [w Hw]. congruence. }
      destruct (decide (S j < S N)) as [Hlt|Hge'].
      { destruct (Hall (S j)) as [w Hw]; [lia|].
        change (new_name _ _ (S j)) with (nth_name file (S j)) in Hw.
        rewrite Hfree in Hw by lia. done. }
      f_equal. lia. }
  destruct (Hread r) as [data Hsrc]; [by left|].
  rewrite copy2_spec, Hsrc. simpl.
  rewrite bool_decide_eq_true_2, Hnone by done.
  set (s1 := mkState _ _ _ _).
  destruct (IH (S j) s1) as [Hok Hcopies].
  - done.
  - intros r' Hr'. destruct (Hread r') as [d' Hd']; [by right|]. exists d'.
    simpl. rewrite lookup_insert_ne; [done|]. intros Heq. rewrite <- Heq in Hd'. congruence.
  - intros i Hi. simpl. apply lookup_insert_is_Some'.
    destruct (decide (i = j)) as [->|Hne]; [by left|]. right. apply Htaken. lia.
  - intros i Hi. simpl. rewrite lookup_insert_ne.
    + apply Hfree. lia.
    + intros [= Heq]. apply nth_name_inj in Heq. lia.
  - split; [done|]. rewrite Hcopies. simpl. rewrite <- app_assoc. simpl.
    rewrite Nat.add_0_r. do 2 f_equal.
    apply imap_ext. intros i x _. unfold compose.
    by replace (j + S i) with (S j + i) by lia.
Qed.

(** X8.  Files that share a collected name get the names of the sequence
    without a gap, in the order of the walk.  When every file of the walk
    has the name [file], they can all be read, and neither [file] nor any
    of its numbered names is in the destination, the [i]-th of them (from
    0) is copied to [file] for [i = 0] and to the name of count [i]
    otherwise. *)
Theorem collector_numbers_without_gap walk roots file s :
  walk_files walk = (λ r, (r, file)) <$> roots →
  is_collected file = true →
  (∀ r, r ∈ roots → ∃ data, files s !! (r, file) = Some (Regular data)) →
  (∀ i, files s !! (destination, nth_name file i) = None) →
  (collector walk s).1 = Ok tt ∧
  copies (collector walk s).2 =
    copies s ++ imap (λ i r, ((r, file), (destination, nth_name file i))) roots.
Proof.
  intros Hwalk Hc Hread Hfree. rewrite collector_unfold, Hwalk.
  destruct (collect_same_name file roots 0 (set_dirs (λ ds, {[destination]} ∪ ds) s))
    as [Hok Hcopies]; try done.
  { simpl. set_solver. }
  { intros i Hi. lia. }
  destruct (collect_all _ _) as [r s2]. simpl in *. subst r. done.
Qed.

Lemma collector_numbers_without_gap_witness :
  copies (collector walk_a tree_a).2 =
  copies tree_a ++
  imap (λ i r, ((r, "a.cnf"), (destination, nth_name "a.cnf" i)))
    [source_root; source_root +:+ "\sub"; source_root +:+ "\sub2"].
Proof.
  destruct (collector_numbers_without_gap walk_a
              [source_root; source_root +:+ "\sub"; source_root +:+ "\sub2"]
              "a.cnf" tree_a) as [_ H].
  - reflexivity.
  - vm_compute. reflexivity.
  - intros r Hr.
    apply elem_of_cons in Hr as [->|Hr]; [eexists; vm_compute; reflexivity|].
    apply elem_of_cons in Hr as [->|Hr]; [eexists; vm_compute; reflexivity|].
    apply elem_of_cons in Hr as [->|Hr]; [eexists; vm_compute; reflexivity|].
    apply elem_of_nil in Hr. destruct Hr.
  - intros i. apply tree_a_destination_empty.
  - exact H.
Defined.

(** ** The Extractor *)

Section ExtractorMore.

Variable lzma_decompress : list byte → exn + list byte.

Local Abbreviation extract_file := (extract_file lzma_decompress).
Local Abbreviation extractor := (extractor lzma_decompress).
Local Abbreviation extract_write := (extract_write lzma_decompress).
Local Abbreviation extract_lines := (extract_lines lzma_decompress).

Lemma extract_file_skip file s :
  is_extracted file = false → extract_file file s = (Ok tt, s).
Proof. unfold extract_file, is_extracted. by intros ->. Qed.

Lemma for_each_extract_filter l s :
  for_each l extract_file s =
  for_each (filter (λ f, is_extracted f) l) extract_file s.
Proof.
  revert s. induction l as [|f l IH]; intros s; [done|].
  destruct (is_extracted f) eqn:Hx.
  - rewrite filter_cons_True. 2:{ simpl. rewrite Hx. exact I. }
    simpl. unfold bind. by destruct (extract_file f s) as [[[]| |] s1].
  - rewrite filter_cons_False. 2:{ simpl. rewrite Hx. intros []. }
    simpl. unfold bind. rewrite extract_file_skip by done. apply IH.
Qed.

(** X9.  Entries with other names are passed over in silence: a run of
    the Extractor is the run over the entries of the listing whose names
    end in [.cnf.xz] up to case. *)
Theorem extractor_skips_other_names listing s :
  extractor listing s = extractor (filter (λ f, is_extracted f) listing) s.
Proof.
  unfold extractor, bind, makedirs. by rewrite <- for_each_extract_filter.
Qed.

Lemma extract_lines_one s file :
  is_extracted file = true →
  ∃ ln, extract_lines s file = [ln] ∧
        (ln = Extracted file (Py.slice_to_minus 3 file) ∨
         ∃ e, ln = ErrorExtracting file e).
Proof.
  intros Hx. unfold extract_lines. rewrite Hx.
  destruct (files s !! (source_folder, file)) as [[data|e]|]; [|by eauto..].
  case_bool_decide; [|by eauto].
  destruct (files s !! (destination_folder, Py.slice_to_minus 3 file))
    as [[old|e]|]; destruct (lzma_decompress data) as [e'|payload]; by eauto.
Qed.

Lemma extract_lines_none s file :
  is_extracted file = false → extract_lines s file = [].
Proof. intros Hx. unfold extract_lines. by rewrite Hx. Qed.

(** X10.  The Extractor prints one line for each entry whose name ends
    in [.cnf.xz] up to case, in the order of the listing, and the closing
    line after them: the line of success of the entry, with the name of
    its output, or a line of error with the name of the entry. *)
Theorem extractor_one_line_per_file listing s :
  ∃ lines,
    stdout (extractor listing s).2 = stdout s ++ lines ++ [AllExtracted] ∧
    Forall2 (λ file ln, ln = Extracted file (Py.slice_to_minus 3 file) ∨
                        ∃ e, ln = ErrorExtracting file e)
            (filter (λ f, is_extracted f) listing) lines.
Proof.
  exists (listing ≫= extract_lines (makedirs destination_folder s).2).
  split; [apply extractor_stdout|].
  induction listing as [|f l IH]; [constructor|].
  destruct (is_extracted f) eqn:Hx.
  - rewrite filter_cons_True. 2:{ simpl. rewrite Hx. exact I. }
    destruct (extract_lines_one (makedirs destination_folder s).2 f Hx)
      as (ln & Hln & Hshape).
    rewrite bind_cons, Hln. cbn [app]. by constructor.
  - rewrite filter_cons_False. 2:{ simpl. rewrite Hx. intros []. }
    by rewrite bind_cons, extract_lines_none.
Qed.

(** X11.  What a failure leaves behind.  When the input cannot be opened
    for reading, the round changes no file.  When the input is read but
    does not decode, the output has been opened by then: it is left
    empty, whatever it held before.  Either way the error is printed
    with the name of the input. *)
Theorem extractor_failure_effects file s :
  is_extracted file = true →
  (∀ e, files s !! (source_folder, file) = Some (Unopenable e) →
        files (extract_file file s).2 = files s ∧
        stdout (extract_file file s).2 = stdout s ++ [ErrorExtracting file e]) ∧
  (files s !! (source_folder, file) = None →
        files (extract_file file s).2 = files s ∧
        stdout (extract_file file s).2 = stdout s ++ [ErrorExtracting file ENOENT]) ∧
  (∀ data e,
     files s !! (source_folder, file) = Some (Regular data) →
     lzma_decompress data = inl e →
     destination_folder ∈ dirs s →
     (∀ e', files s !! (destination_folder, Py.slice_to_minus 3 file)
            ≠ Some (Unopenable e')) →
     files (extract_file file s).2 =
       <[(destination_folder, Py.slice_to_minus 3 file) := Regular []]> (files s) ∧
     stdout (extract_file file s).2 = stdout s ++ [ErrorExtracting file e]).
Proof.
  intros Hx. rewrite extract_file_run. simpl.
  unfold extract_write, extract_lines. rewrite Hx.
  split; [|split].
  - by intros e ->.
  - by intros ->.
  - intros data e -> -> Hd Hu. rewrite bool_decide_eq_true_2 by done.
    destruct (files s !! (destination_folder, Py.slice_to_minus 3 file))
      as [[old|e']|]; try done. by destruct (Hu e').
Qed.

End ExtractorMore.

Lemma extractor_failure_effects_witness :
  files (extract_file toy_xz "bad.cnf.xz" (makedirs destination_folder folder_mixed).2).2 =
    <[(destination_folder, Py.slice_to_minus 3 "bad.cnf.xz") := Regular []]>
      (files (makedirs destination_folder folder_mixed).2) ∧
  files (extract_file toy_xz "locked.cnf.xz" folder_mixed).2 = files folder_mixed.
Proof.
  split.
  - destruct (extractor_failure_effects toy_xz "bad.cnf.xz"
                (makedirs destination_folder folder_mixed).2) as (_ & _ & H).
    + vm_compute. reflexivity.
    + destruct (H (list_byte_of_string "garbage")
                  "Input format not supported by decoder") as [Hf _].
      * vm_compute. reflexivity.
      * vm_compute. reflexivity.
      * vm_compute. reflexivity.
      * intros e He. vm_compute in He. discriminate He.
      * exact Hf.
  - destruct (extractor_failure_effects toy_xz "locked.cnf.xz" folder_mixed)
      as (H & _).
    + vm_compute. reflexivity.
    + destruct (H "Permission denied") as [Hf _].
      * vm_compute. reflexivity.
      * exact Hf.
Defined.

Lemma writes_keys_sublist lzma_decompress s (l : list string) :
  (omap (extract_write lzma_decompress s) l).*1 `sublist_of`
  (pair destination_folder <$> (Py.slice_to_minus 3 <$> filter (λ f, is_extracted f) l)).
Proof.
  induction l as [|f l IH]; [constructor|].
  cbn [omap list_omap].
  destruct (extract_write lzma_decompress s f) as [[k v]|] eqn:Hw.
  - apply extract_write_Some in Hw as (Hx & -> & _).
    rewrite filter_cons_True. 2:{ simpl. rewrite Hx. exact I. }
    rewrite !fmap_cons. cbn [fst]. by apply sublist_skip.
  - destruct (is_extracted f) eqn:Hx.
    + rewrite filter_cons_True. 2:{ simpl. rewrite Hx. exact I. }
      rewrite !fmap_cons. by apply sublist_cons.
    + rewrite filter_cons_False; [done|]. simpl. rewrite Hx. intros [].
Qed.

(** X12.  The order in which [os.listdir] gives the entries does not
    matter when the outputs have distinct names: two listings with the
    same entries then leave the same files. *)
Theorem extractor_order_independent lzma_decompress listing1 listing2 s :
  listing1 ≡ₚ listing2 →
  NoDup (Py.slice_to_minus 3 <$> filter (λ f, is_extracted f) listing1) →
  files (extractor lzma_decompress listing1 s).2 =
  files (extractor lzma_decompress listing2 s).2.
Proof.
  intros Hperm Hnd. rewrite !extractor_files, !apply_writes_union. f_equal.
  apply list_to_map_proper.
  - rewrite reverse_Permutation.
    eapply sublist_NoDup; [|apply writes_keys_sublist].
    by apply (NoDup_fmap_2 (pair destination_folder)).
  - rewrite !reverse_Permutation. by apply omap_Permutation.
Qed.

Lemma extractor_order_independent_witness :
  files (extractor toy_xz ["bad.cnf.xz"; "locked.cnf.xz"; "x.cnf.xz"] folder_mixed).2 =
  files (extractor toy_xz ["x.cnf.xz"; "bad.cnf.xz"; "locked.cnf.xz"] folder_mixed).2.
Proof.
  apply extractor_order_independent.
  - change ["x.cnf.xz"; "bad.cnf.xz"; "locked.cnf.xz"]
      with (["x.cnf.xz"] ++ ["bad.cnf.xz"; "locked.cnf.xz"]).
    change ["bad.cnf.xz"; "locked.cnf.xz"; "x.cnf.xz"]
      with (["bad.cnf.xz"; "locked.cnf.xz"] ++ ["x.cnf.xz"]).
    apply Permutation_app_comm.
  - apply (bool_decide_eq_true_1 (NoDup _)). vm_compute. reflexivity.
Defined.

(** X13.  The output of the Extractor has a name that ends in [.cnf] up
    to case, hence not in [.cnf.xz]: the Collector would collect it, and
    the Extractor would pass it over. *)
Theorem extractor_output_is_cnf file :
  is_extracted file = true →
  Py.endswith (Py.lower (Py.slice_to_minus 3 file)) ".cnf" = true ∧
  is_collected (Py.slice_to_minus 3 file) = true ∧
  is_extracted (Py.slice_to_minus 3 file) = false.
Proof.
  intros (stem & c1 & c2 & c3 & c4 & c5 & c6 & c7 & -> & Hl & _)%splitext_cnf_xz.
  apply lower_tail_chars in Hl. rewrite PyFacts.chars_str in Hl.
  injection Hl as H1 H2 H3 H4 _ _ _.
  assert (stem +:+ Py.str [c1; c2; c3; c4; c5; c6; c7] =
          (stem +:+ Py.str [c1; c2; c3; c4]) +:+ Py.str [c5; c6; c7]) as ->.
  { apply PyFacts.chars_inj. rewrite !PyFacts.chars_app, !PyFacts.chars_str.
    by rewrite <- app_assoc. }
  change 3 with (String.length (Py.str [c5; c6; c7])).
  rewrite PyFacts.slice_to_minus_app.
  assert (Py.endswith (Py.lower (stem +:+ Py.str [c1; c2; c3; c4])) ".cnf" = true) as Hcnf.
  { apply PyFacts.endswith_lower. exists stem, (Py.str [c1; c2; c3; c4]).
    split; [done|]. apply PyFacts.chars_inj.
    rewrite PyFacts.chars_lower, PyFacts.chars_str. simpl. by rewrite H1, H2, H3, H4. }
  split; [done|]. split.
  { unfold is_collected. by rewrite Hcnf. }
  apply not_true_is_false.
  intros (stem' & tail' & Heq & Hl')%PyFacts.endswith_lower.
  apply lower_tail_chars in Hl'.
  unfold Py.chars in Hl'. simpl in Hl'. fold (Py.chars tail') in Hl'.
  destruct (Py.chars tail') as [|d1 [|d2 [|d3 [|d4 [|d5 [|d6 [|d7 [|d8 ?]]]]]]]] eqn:Ht;
    try discriminate Hl'.
  injection Hl' as _ _ _ _ _ _ H7.
  apply (f_equal Py.chars) in Heq.
  rewrite !PyFacts.chars_app, PyFacts.chars_str, Ht in Heq.
  change [c1; c2; c3; c4] with ([c1; c2; c3] ++ [c4]) in Heq.
  change [d1; d2; d3; d4; d5; d6; d7] with ([d1; d2; d3; d4; d5; d6] ++ [d7]) in Heq.
  rewrite !app_assoc in Heq. apply app_inj_tail in Heq as [_ ->].
  rewrite H4 in H7. discriminate H7.
Qed.

Lemma extractor_output_is_cnf_witness :
  is_collected (Py.slice_to_minus 3 "x.Cnf.XZ") = true ∧
  is_extracted (Py.slice_to_minus 3 "x.Cnf.XZ") = false.
Proof.
  destruct (extractor_output_is_cnf "x.Cnf.XZ") as (_ & H1 & H2).
  - vm_compute. reflexivity.
  - exact (conj H1 H2).
Defined.

(** ** The two tools in a row *)

Lemma collected_is_source : destination = source_folder.
Proof. reflexivity. Qed.

Lemma extract_valid_final lzma_decompress listing file data payload s :
  file ∈ listing →
  is_extracted file = true →
  files s !! (source_folder, file) = Some (Regular data) →
  lzma_decompress data = inr payload →
  (∀ e, files s !! (destination_folder, Py.slice_to_minus 3 file)
        ≠ Some (Unopenable e)) →
  (∀ g, g ∈ listing → is_extracted g = true →
        Py.slice_to_minus 3 g = Py.slice_to_minus 3 file → g = file) →
  files (extractor lzma_decompress listing s).2
    !! (destination_folder, Py.slice_to_minus 3 file) = Some (Regular payload).
Proof.
  intros Hin Hx Hsrc Hz Hu Huniq.
  destruct (entry_env s) as (Hf & _ & Hd).
  destruct (extract_valid lzma_decompress (makedirs destination_folder s).2
              file data payload)
    as [Hw _]; [done|by rewrite Hf|done|done|intros e; by rewrite Hf|].
  rewrite extractor_files. apply apply_writes_same.
  - apply list_elem_of_omap. by exists file.
  - intros v' (g & Hg & Hxg & Hwg & Hk)%elem_of_writes.
    injection Hk as Hk. rewrite (Huniq g Hg Hxg) in Hwg by done. congruence.
Qed.

(** X14.  The folder the Collector fills is the folder the Extractor
    reads.  After a run of the Collector from an empty history, a copy it
    made of a file whose name ends in [.cnf.xz] up to case holds the
    contents of its source; when these decode, a run of the Extractor
    over a listing with that copy, whose output can be opened and has a
    name no other entry gives, leaves the payload in the output. *)
Theorem collect_then_extract lzma_decompress walk listing src name s :
  copies s = [] →
  (src, (destination, name)) ∈ copies (collector walk s).2 →
  name ∈ listing →
  is_extracted name = true →
  (∀ e, files (collector walk s).2 !! (destination_folder, Py.slice_to_minus 3 name)
        ≠ Some (Unopenable e)) →
  (∀ g, g ∈ listing → is_extracted g = true →
        Py.slice_to_minus 3 g = Py.slice_to_minus 3 name → g = name) →
  ∃ data,
    files (collector walk s).2 !! src = Some (Regular data) ∧
    files (collector walk s).2 !! (source_folder, name) = Some (Regular data) ∧
    ∀ payload, lzma_decompress data = inr payload →
      files (extractor lzma_decompress listing (collector walk s).2).2
        !! (destination_folder, Py.slice_to_minus 3 name) = Some (Regular payload).
Proof.
  intros Hempty Hcopy Hin Hx Hu Huniq.
  destruct (collector_spec walk s) as [cs H].
  destruct H as [_ _ _ _ Hcs _ _ _ Hdata _ _]. simpl in Hcs, Hdata.
  rewrite Hempty in Hcs. simpl in Hcs. rewrite Hcs in Hcopy.
  destruct (Hdata _ _ Hcopy) as (data & Hsrc & Hdst).
  exists data. split; [done|]. split; [done|].
  intros payload Hz. by eapply extract_valid_final.
Qed.

Lemma collect_then_extract_witness :
  ∃ data,
    files (collector walk_xz tree_xz).2 !! (source_root, "x.cnf.xz") =
      Some (Regular data) ∧
    files (collector walk_xz tree_xz).2 !! (source_folder, "x.cnf.xz") =
      Some (Regular data) ∧
    ∀ payload, toy_xz data = inr payload →
      files (extractor toy_xz ["x.cnf.xz"] (collector walk_xz tree_xz).2).2
        !! (destination_folder, Py.slice_to_minus 3 "x.cnf.xz") =
      Some (Regular payload).
Proof.
  apply (collect_then_extract toy_xz walk_xz ["x.cnf.xz"]
           (source_root, "x.cnf.xz") "x.cnf.xz" tree_xz).
  - reflexivity.
  - assert (copies (collector walk_xz tree_xz).2 =
            [((source_root, "x.cnf.xz"), (destination, "x.cnf.xz"))]) as Hc
      by (vm_compute; reflexivity).
    rewrite Hc. apply list_elem_of_singleton. reflexivity.
  - apply list_elem_of_singleton. reflexivity.
  - vm_compute. reflexivity.
  - intros e He. vm_compute in He. discriminate He.
  - intros g Hg _ _. apply list_elem_of_singleton in Hg. exact Hg.
Defined.
